(** * judini: the CodeGPTPlus client ([src/judini/codegpt.py])

    A shallow embedding of the client class: Python values, the dictionaries
    the client builds and sends, the exceptions it raises, and the calls that
    leave the module (HTTP requests, the response decoders of
    [judini.utils], [print]).  Methods are functions in a state-and-exception
    monad over a [World] that holds the object store and the trace of those
    calls. *)

From Stdlib Require Import PrimFloat Ascii.
From stdpp Require Import gmap strings list pretty.

Open Scope string_scope.
Set Warnings "-register-all".
Set Default Proof Using "Type".

(** ** Python values *)

(** The values that flow through the client: what callers pass as arguments,
    what [json.loads] returns and what [json.dumps] accepts.  A [dict] keeps
    its insertion order, so it is an association list. *)
Inductive value : Type :=
| VNone
| VBool (b : bool)
| VInt (z : Z)
| VFloat (f : float)
| VStr (s : string)
| VList (l : list value)
| VDict (d : list (string * value)).

(** Python's truth value testing, as used by [if x:] and [not x]. *)
Definition truthy (v : value) : bool :=
  match v with
  | VNone => false
  | VBool b => b
  | VInt z => negb (z =? 0)%Z
  | VFloat f => negb (PrimFloat.eqb f 0%float)
  | VStr s => negb (String.eqb s "")
  | VList l => negb (bool_decide (l = []))
  | VDict d => negb (bool_decide (d = []))
  end.

(** A double quote, for the strings that contain one. *)
Definition dquote : string := String (ascii_of_nat 34) "".

(** ** Ordered dictionaries *)

Section dict.
Context {A : Type}.

(** [d.get(k)] *)
Fixpoint dict_get (k : string) (d : list (string * A)) : option A :=
  match d with
  | [] => None
  | (k', v) :: d' => if decide (k = k') then Some v else dict_get k d'
  end.

(** [d[k] = v]: an existing key keeps its position, a new key goes last. *)
Fixpoint dict_set (k : string) (v : A) (d : list (string * A)) : list (string * A) :=
  match d with
  | [] => [(k, v)]
  | (k', v') :: d' =>
      if decide (k = k') then (k, v) :: d' else (k', v') :: dict_set k v d'
  end.

Definition dict_keys (d : list (string * A)) : list string := d.*1.

End dict.

(** Item lookup on a value: only a [dict] has keys. *)
Definition value_get (k : string) (v : value) : option value :=
  match v with
  | VDict d => dict_get k d
  | _ => None
  end.

(** ** Exceptions *)

Inductive exn : Type :=
| Exception (msg : string)
| ValueError (msg : string)
| NotImplementedError (msg : string)
| FileNotFoundError (msg : string)
| IsADirectoryError (path : string)
| PermissionError (path : string)
| KeyError (key : string)
| TypeError
| JSONDecodeError (doc : string)
| DecodeError (raw : string)
| StreamError (message : value)
| DanglingReference.

Inductive Res (A : Type) : Type :=
| Ok (a : A)
| Raise (e : exn).
Arguments Ok {A} a.
Arguments Raise {A} e.

(** ** HTTP messages *)

Inductive Method := GET | POST | PATCH | DELETE.

(** The [files=] argument of [requests.post]: name, content and MIME type. *)
Record Upload := {
  up_name : string;
  up_content : string;
  up_type : option string;
}.

(** One call of [requests.get/post/patch/delete], with the headers as they
    are when the call is made. *)
Record Request := {
  req_method : Method;
  req_url : string;
  req_headers : gmap string string;
  req_data : option string;
  req_stream : bool;
  req_files : option Upload;
}.

(** What the client reads of a [requests.Response]. *)
Record Response := {
  status_code : Z;
  text : string;
  iter_lines : list string;
}.

(** [Literal['json', 'text']] *)
Inductive Format := Fjson | Ftext.

Definition Format_of (s : string) : option Format :=
  if decide (s = "json") then Some Fjson
  else if decide (s = "text") then Some Ftext
  else None.

(** ** The world *)

(** Calls that leave [codegpt.py], in the order they happen. *)
Inductive event : Type :=
| Http (r : Request)
| HandleStream (r : Response) (format : Format)
| HandleNonStream (r : Response) (format : Format)
| Printed (s : string).

(** [heap] stores the header dictionaries by reference, so that two names
    for one dictionary see each other's updates and a [copy()] does not.
    The file system has two kinds of paths that exist: [files] holds the
    files that can be read, with their content; [unopenable] holds the
    paths that exist and that [open] refuses, with the exception it raises
    (a directory: [IsADirectoryError]; a file without read permission:
    [PermissionError]).  A path in neither does not exist. *)
Record World := {
  heap : gmap nat (gmap string string);
  trace : list event;
  environ : gmap string string;
  files : gmap string string;
  unopenable : gmap string exn;
}.

Definition set_heap (h : gmap nat (gmap string string)) (w : World) : World :=
  {| heap := h; trace := trace w; environ := environ w; files := files w;
     unopenable := unopenable w |}.

Definition log (e : event) (w : World) : World :=
  {| heap := heap w; trace := trace w ++ [e]; environ := environ w; files := files w;
     unopenable := unopenable w |}.

(** The requests made in a trace. *)
Definition requests_of (t : list event) : list Request :=
  omap (λ e, match e with Http r => Some r | _ => None end) t.

(** The responses handed to a decoder in a trace. *)
Definition decoded_of (t : list event) : list Response :=
  omap (λ e, match e with
             | HandleStream r _ | HandleNonStream r _ => Some r
             | _ => None
             end) t.

(** ** The monad of methods *)

Definition M (A : Type) : Type := World → Res A * World.

#[global] Instance M_ret : MRet M := λ A a w, (Ok a, w).
#[global] Instance M_bind : MBind M := λ A B f m w,
  match m w with
  | (Ok a, w') => f a w'
  | (Raise e, w') => (Raise e, w')
  end.

Definition raise {A} (e : exn) : M A := λ w, (Raise e, w).
Definition lift {A} (r : Res A) : M A := λ w, (r, w).
Definition emit (e : event) : M unit := λ w, (Ok (), log e w).
Definition getenv (k : string) : M (option string) := λ w, (Ok (environ w !! k), w).

(** Allocation of a new dictionary object. *)
Definition new_dict (d : gmap string string) : M nat := λ w,
  let l := fresh (dom (heap w)) in (Ok l, set_heap (<[l := d]> (heap w)) w).

(** Reading the dictionary a reference points to. *)
Definition deref (l : nat) : M (gmap string string) := λ w,
  match heap w !! l with
  | Some d => (Ok d, w)
  | None => (Raise DanglingReference, w)
  end.

(** [d.copy()] *)
Definition dict_copy (l : nat) : M nat := d ← deref l; new_dict d.

(** [d[k] = v] on the object itself *)
Definition setitem (l : nat) (k v : string) : M unit := λ w,
  match heap w !! l with
  | Some d => (Ok (), set_heap (<[l := <[k := v]> d]> (heap w)) w)
  | None => (Raise DanglingReference, w)
  end.

(** [del d[k]] on the object itself; a missing key is a [KeyError]. *)
Definition delitem (l : nat) (k : string) : M unit := λ w,
  match heap w !! l with
  | Some d =>
      match d !! k with
      | Some _ => (Ok (), set_heap (<[l := delete k d]> (heap w)) w)
      | None => (Raise (KeyError k), w)
      end
  | None => (Raise DanglingReference, w)
  end.

(** [os.path.exists(path)]: true for every path that exists, whether or
    not it can be opened. *)
Definition os_path_exists (path : string) : M bool :=
  λ w, (Ok (bool_decide (is_Some (files w !! path) ∨ is_Some (unopenable w !! path))), w).

(** [open(path, 'rb')] and [read()]: the content of a readable file; the
    exception of the file system on a path that exists and cannot be opened;
    [FileNotFoundError] on a path that does not exist. *)
Definition open_rb (path : string) : M string := λ w,
  match files w !! path with
  | Some content => (Ok content, w)
  | None =>
      match unopenable w !! path with
      | Some e => (Raise e, w)
      | None => (Raise (FileNotFoundError path), w)
      end
  end.

(** A computation keeps the object at [l] when, whatever it returns or
    raises, the heap holds at [l] what it held before. *)
Definition keeps {A} (l : nat) (m : M A) : Prop :=
  ∀ w, heap (m w).2 !! l = heap w !! l.

(** A computation is silent when it leaves the world as it is. *)
Definition silent {A} (m : M A) : Prop := ∀ w, (m w).2 = w.

(** The events a call added to the trace. *)
Definition added (w w' : World) : list event := drop (length (trace w)) (trace w').

(** What [print] wrote in a trace. *)
Definition printed_of (t : list event) : list string :=
  omap (λ e, match e with Printed s => Some s | _ => None end) t.

(** A computation is quiet when it makes no request. *)
Definition quiet {A} (m : M A) : Prop :=
  ∀ w, ∃ evs : list event, trace (m w).2 = (trace w ++ evs)%list ∧ requests_of evs = [].

(** A computation is frugal when it makes one request at most. *)
Definition frugal {A} (m : M A) : Prop :=
  ∀ w, ∃ evs : list event,
    trace (m w).2 = (trace w ++ evs)%list ∧ (length (requests_of evs) ≤ 1)%nat.

(** A computation spares the object at [l] when, started in a world where
    that object exists, it leaves it as it is. *)
Definition spares {A} (l : nat) (m : M A) : Prop :=
  ∀ w, is_Some (heap w !! l) → heap (m w).2 !! l = heap w !! l.

(** The value of [a] after [if not a: a = b], on optional strings. *)
Definition or_else (a b : option string) : option string :=
  if truthy (from_option VStr VNone a) then a else b.

(** * The response decoders ([judini/utils.py])

    [codegpt.py] imports [handle_stream] and [handle_non_stream] from
    [judini/utils.py], which is not among the sources.  Every definition of
    this module is modelled from the specification of the decoder (its
    sections 3, 4.1 and 6) and says so. *)

Module utils.
Section decoders.
(** Python's [json.loads] ([None] for a document that does not parse). *)
Variable json_loads : string → option value.
(** The field whose presence marks an error event; the specification
    leaves its name open. *)
Variable error_field : string.

(** Modelled from the spec: the field that holds the text of an answer or
    of a fragment, as in the example frame of its section 8
    ([judini/utils.py] is missing). *)
Definition text_field : string := "text".
(** Modelled from the spec: the literal terminal marker of a stream
    ([judini/utils.py] is missing). *)
Definition terminal_marker : string := "[DONE]".

(** Modelled from the spec: reading a [field: value] line
    ([judini/utils.py] is missing); [s] without its prefix [p], when it
    starts with it. *)
Fixpoint strip_prefix (p s : string) : option string :=
  match p, s with
  | EmptyString, _ => Some s
  | String a p', String b s' => if decide (a = b) then strip_prefix p' s' else None
  | String _ _, EmptyString => None
  end.

(** Modelled from the spec: the value of a [field: value] line, without
    the space after the colon ([judini/utils.py] is missing). *)
Definition field_value (rest : string) : string :=
  match rest with
  | String c rest' => if decide (c = " "%char) then rest' else rest
  | EmptyString => rest
  end.

(** Modelled from the spec: the payload of a [data:] line, the only field
    that is interpreted; other lines carry no frame
    ([judini/utils.py] is missing). *)
Definition data_of (line : string) : option string :=
  field_value <$> strip_prefix "data:" line.

(** Modelled from the spec: the event types of its data model
    ([judini/utils.py] is missing). *)
Inductive EventType := message | error | done | unknown.

(** Modelled from the spec: [StreamEvent], one server-sent-event frame
    decoded from the wire ([judini/utils.py] is not among the sources). *)
Record StreamEvent := {
  eventType : EventType;
  rawPayload : string;
  parsedPayload : option value;
}.

(** Modelled from the spec: the textual field of a payload
    ([judini/utils.py] is missing). *)
Definition text_of (v : value) : option string :=
  match value_get text_field v with
  | Some (VStr s) => Some s
  | _ => None
  end.

(** Modelled from the spec: the decode step of one frame
    ([judini/utils.py] is not among the sources).  The terminal marker is a
    [done] event; a payload with the error field is an [error] event;
    otherwise a payload with a textual field is a content fragment; a
    payload that is not JSON or lacks the expected keys is [unknown].  The
    only terminal event with a wire form in the specification is the
    literal marker. *)
Definition decode_frame (payload : string) : StreamEvent :=
  if decide (payload = terminal_marker) then
    {| eventType := done; rawPayload := payload; parsedPayload := None |}
  else
    match json_loads payload with
    | None => {| eventType := unknown; rawPayload := payload; parsedPayload := None |}
    | Some v =>
        {| eventType :=
             match value_get error_field v with
             | Some _ => error
             | None => match text_of v with Some _ => message | None => unknown end
             end;
           rawPayload := payload;
           parsedPayload := Some v |}
    end.

(** Modelled from the spec: the server-supplied message of an error event
    ([judini/utils.py] is missing). *)
Definition error_message (ev : StreamEvent) : value :=
  default VNone (parsedPayload ev ≫= value_get error_field).

(** Modelled from the spec: the fragment of a content event, its text
    ([judini/utils.py] is missing). *)
Definition fragment (ev : StreamEvent) : option string :=
  match eventType ev with
  | message => parsedPayload ev ≫= text_of
  | _ => None
  end.

(** Modelled from the spec: the chunk a content event yields, the textual
    delta as a string or the structured delta as it is
    ([judini/utils.py] is missing). *)
Definition chunk_of (format : Format) (ev : StreamEvent) : value :=
  match format with
  | Ftext => VStr (default "" (fragment ev))
  | Fjson => default VNone (parsedPayload ev)
  end.

(** Modelled from the spec: the state machine of the streaming mode
    ([judini/utils.py] is not among the sources):
    [AWAITING_FRAME → {EMIT_CHUNK → AWAITING_FRAME} | DONE | FAILED]. *)
Inductive State :=
| AWAITING_FRAME
| EMIT_CHUNK (chunk : value)
| DONE
| FAILED (err : exn).

(** Modelled from the spec: the generator, with its state, the lines not
    read yet and the target format ([judini/utils.py] is missing). *)
Record StreamDecoder := {
  state : State;
  transport : list string;
  format : Format;
}.

(** Modelled from the spec: from [AWAITING_FRAME], read lines until a
    frame decides the next state; the lines after it stay unread, and the
    end of the body ends the stream ([judini/utils.py] is missing). *)
Fixpoint await (fmt : Format) (lines : list string) : State * list string :=
  match lines with
  | [] => (DONE, [])
  | line :: rest =>
      match data_of line with
      | None => await fmt rest
      | Some payload =>
          let ev := decode_frame payload in
          match eventType ev with
          | error => (FAILED (StreamError (error_message ev)), rest)
          | done => (DONE, rest)
          | message => (EMIT_CHUNK (chunk_of fmt ev), rest)
          | unknown => await fmt rest
          end
      end
  end.

(** Modelled from the spec: what one [next(g)] gives the consumer
    ([judini/utils.py] is missing). *)
Inductive Signal :=
| Yield (chunk : value)
| StopIteration
| Raised (e : exn).

(** Modelled from the spec: one [next(g)] on the generator
    ([judini/utils.py] is not among the sources).  A finished or failed
    generator only stops. *)
Definition next (g : StreamDecoder) : Signal * StreamDecoder :=
  match state g with
  | DONE | FAILED _ => (StopIteration, g)
  | AWAITING_FRAME | EMIT_CHUNK _ =>
      let '(s, rest) := await (format g) (transport g) in
      let g' := {| state := s; transport := rest; format := format g |} in
      match s with
      | EMIT_CHUNK c => (Yield c, g')
      | FAILED e => (Raised e, g')
      | DONE | AWAITING_FRAME => (StopIteration, g')
      end
  end.

(** Modelled from the spec: what a consumer that iterates to the end has
    seen, the chunks in order and the exception that ended the iteration,
    if one did ([judini/utils.py] is missing). *)
Record Consumed := {
  chunks : list value;
  failure : option exn;
  final : StreamDecoder;
}.

(** Modelled from the spec: [for chunk in g: ...], at most [fuel] calls
    of [next] ([judini/utils.py] is missing). *)
Fixpoint iterate (fuel : nat) (g : StreamDecoder) : Consumed :=
  match fuel with
  | 0 => {| chunks := []; failure := None; final := g |}
  | S n =>
      match next g with
      | (Yield c, g') =>
          let r := iterate n g' in
          {| chunks := c :: chunks r; failure := failure r; final := final r |}
      | (StopIteration, g') => {| chunks := []; failure := None; final := g' |}
      | (Raised e, g') => {| chunks := []; failure := Some e; final := g' |}
      end
  end.

(** Modelled from the spec: the iteration to the end
    ([judini/utils.py] is missing).  Every chunk costs a line, so one call
    more than there are lines reaches the end ([consume_final_terminal]). *)
Definition consume (g : StreamDecoder) : Consumed :=
  iterate (S (length (transport g))) g.

(** Modelled from the spec: the streaming mode
    ([judini/utils.py] is not among the sources): a generator over the
    lines of the response, not started. *)
Definition handle_stream (response : Response) (fmt : Format) : StreamDecoder :=
  {| state := AWAITING_FRAME; transport := iter_lines response; format := fmt |}.

(** Modelled from the spec: the non-streaming mode
    ([judini/utils.py] is not among the sources): the body is one JSON
    document; the text format returns its textual field, the json format
    the whole document; a body that does not parse or lacks the field is a
    [DecodeError] with the raw body. *)
Definition handle_non_stream (response : Response) (fmt : Format) : Res value :=
  match json_loads (text response) with
  | None => Raise (DecodeError (text response))
  | Some v =>
      match text_of v with
      | None => Raise (DecodeError (text response))
      | Some s =>
          match fmt with
          | Ftext => Ok (VStr s)
          | Fjson => Ok v
          end
      end
  end.

(** Modelled from the spec: the frames of a body, in arrival order
    ([judini/utils.py] is missing). *)
Definition frames (lines : list string) : list StreamEvent :=
  omap (λ line, decode_frame <$> data_of line) lines.

(** Modelled from the spec: the frames that arrive before the terminal
    event of the stream, a [done] or an [error]
    ([judini/utils.py] is missing). *)
Fixpoint live (evs : list StreamEvent) : list StreamEvent :=
  match evs with
  | [] => []
  | ev :: evs' =>
      match eventType ev with
      | done | error => []
      | message | unknown => ev :: live evs'
      end
  end.

(** Modelled from the spec: the text of [AggregateResult], the fragments
    of the [message] events of the stream concatenated in arrival order
    ([judini/utils.py] is missing). *)
Definition aggregate_text (lines : list string) : string :=
  String.concat "" (omap fragment (live (frames lines))).

(** Modelled from the spec: the text of a chunk of the text format
    ([judini/utils.py] is missing). *)
Definition chunk_text (c : value) : string :=
  match c with
  | VStr s => s
  | _ => ""
  end.

(** Modelled from the spec: a non-streaming body is equivalent to a
    stream when it is a JSON document whose textual field is the aggregate
    text of the stream ([judini/utils.py] is missing). *)
Definition equivalent_body (body : string) (lines : list string) : Prop :=
  ∃ v, json_loads body = Some v ∧ text_of v = Some (aggregate_text lines).

(** Modelled from the spec: a generator that has not started, in the
    initial state ([judini/utils.py] is missing). *)
Definition start (fmt : Format) (lines : list string) : StreamDecoder :=
  {| state := AWAITING_FRAME; transport := lines; format := fmt |}.

(** Modelled from the spec: the three kinds of frame that are not the
    terminal marker, by their payload ([judini/utils.py] is missing): a
    content frame with its parsed payload and its text, an error frame with
    the server's message, and a malformed frame (not JSON, or without the
    expected keys). *)
Definition is_content (payload : string) (v : value) (s : string) : Prop :=
  payload ≠ terminal_marker ∧ json_loads payload = Some v
  ∧ value_get error_field v = None ∧ text_of v = Some s.

Definition is_error (payload : string) (msg : value) : Prop :=
  payload ≠ terminal_marker
  ∧ ∃ v, json_loads payload = Some v ∧ value_get error_field v = Some msg.

Definition is_malformed (payload : string) : Prop :=
  payload ≠ terminal_marker
  ∧ (json_loads payload = None
     ∨ ∃ v, json_loads payload = Some v ∧ value_get error_field v = None
            ∧ text_of v = None).

(** Modelled from the spec: a frame on the wire, its [data:] line and the
    blank line that ends the record ([judini/utils.py] is missing). *)
Definition record (payload : string) : list string := ["data: " ++ payload; ""].

(** Modelled from the spec: the chunk of a content frame in each format
    ([judini/utils.py] is missing). *)
Definition chunk (fmt : Format) (v : value) (s : string) : value :=
  match fmt with
  | Ftext => VStr s
  | Fjson => v
  end.

End decoders.
End utils.

(** * A JSON reader and writer for the examples

    The theorems below hold for every [json_loads] and [json_dumps].  To run
    the client and the decoders on concrete bodies, this module reads and
    writes the fragment of JSON without escapes in strings and without
    fractions or exponents in numbers, in the layout of Python's
    [json.dumps] (a space after each comma and colon). *)

Module Json.

Definition is_ws (c : ascii) : bool :=
  bool_decide (c = " "%char) || bool_decide (nat_of_ascii c = 10%nat)
  || bool_decide (nat_of_ascii c = 13%nat) || bool_decide (nat_of_ascii c = 9%nat).

Fixpoint skip_ws (s : list ascii) : list ascii :=
  match s with
  | c :: s' => if is_ws c then skip_ws s' else s
  | [] => []
  end.

Definition digit_of (c : ascii) : option Z :=
  let n := nat_of_ascii c in
  if bool_decide (48 ≤ n ≤ 57)%nat then Some (Z.of_nat (n - 48)%nat) else None.

(** The digits at the head of the input, as a number, and the rest. *)
Fixpoint read_digits (acc : Z) (s : list ascii) : Z * list ascii :=
  match s with
  | c :: s' =>
      match digit_of c with
      | Some d => read_digits (10 * acc + d)%Z s'
      | None => (acc, s)
      end
  | [] => (acc, [])
  end.

(** The characters up to the closing quote; a backslash or a control
    character is outside the fragment. *)
Fixpoint read_string (s : list ascii) : option (string * list ascii) :=
  match s with
  | [] => None
  | c :: s' =>
      if bool_decide (nat_of_ascii c = 34%nat) then Some ("", s')
      else if bool_decide (nat_of_ascii c = 92%nat) || bool_decide (nat_of_ascii c < 32)%nat then None
      else '(str, rest) ← read_string s'; Some (String c str, rest)
  end.

(** The members of an object become a [dict]: a key met again keeps its
    place and takes the later value. *)
Definition of_members {A} (members : list (string * A)) : list (string * A) :=
  foldl (λ d kv, dict_set kv.1 kv.2 d) [] members.

Definition read_literal (word : string) (v : value) (s : list ascii)
    : option (value * list ascii) :=
  let w := String.list_ascii_of_string word in
  if bool_decide (take (length w) s = w) then Some (v, drop (length w) s) else None.

Fixpoint read_value (fuel : nat) (s : list ascii) : option (value * list ascii) :=
  match fuel with
  | 0 => None
  | S n =>
      match skip_ws s with
      | [] => None
      | c :: s' =>
          if bool_decide (c = "{"%char) then
            match skip_ws s' with
            | c' :: s'' =>
                if bool_decide (c' = "}"%char) then Some (VDict [], s'')
                else '(d, rest) ← read_members n (c' :: s''); Some (VDict (of_members d), rest)
            | [] => None
            end
          else if bool_decide (c = "["%char) then
            match skip_ws s' with
            | c' :: s'' =>
                if bool_decide (c' = "]"%char) then Some (VList [], s'')
                else '(l, rest) ← read_elements n (c' :: s''); Some (VList l, rest)
            | [] => None
            end
          else if bool_decide (nat_of_ascii c = 34%nat) then
            '(str, rest) ← read_string s'; Some (VStr str, rest)
          else if bool_decide (c = "-"%char) then
            match s' with
            | c' :: _ =>
                if bool_decide (is_Some (digit_of c')) then
                  let '(z, rest) := read_digits 0%Z s' in Some (VInt (- z)%Z, rest)
                else None
            | [] => None
            end
          else if bool_decide (is_Some (digit_of c)) then
            let '(z, rest) := read_digits 0%Z (c :: s') in Some (VInt z, rest)
          else if bool_decide (c = "t"%char) then read_literal "true" (VBool true) (c :: s')
          else if bool_decide (c = "f"%char) then read_literal "false" (VBool false) (c :: s')
          else if bool_decide (c = "n"%char) then read_literal "null" VNone (c :: s')
          else None
      end
  end
with read_elements (fuel : nat) (s : list ascii) : option (list value * list ascii) :=
  match fuel with
  | 0 => None
  | S n =>
      '(v, rest) ← read_value n s;
      match skip_ws rest with
      | c :: rest' =>
          if bool_decide (c = ","%char) then
            '(l, rest'') ← read_elements n rest'; Some (v :: l, rest'')
          else if bool_decide (c = "]"%char) then Some ([v], rest')
          else None
      | [] => None
      end
  end
with read_members (fuel : nat) (s : list ascii)
    : option (list (string * value) * list ascii) :=
  match fuel with
  | 0 => None
  | S n =>
      match skip_ws s with
      | q :: s' =>
          if bool_decide (nat_of_ascii q = 34%nat) then
            '(k, rest) ← read_string s';
            match skip_ws rest with
            | c :: rest' =>
                if bool_decide (c = ":"%char) then
                  '(v, rest'') ← read_value n rest';
                  match skip_ws rest'' with
                  | c' :: rest3 =>
                      if bool_decide (c' = ","%char) then
                        '(d, rest4) ← read_members n rest3; Some ((k, v) :: d, rest4)
                      else if bool_decide (c' = "}"%char) then Some ([(k, v)], rest3)
                      else None
                  | [] => None
                  end
                else None
            | [] => None
            end
          else None
      | [] => None
      end
  end.

(** [json.loads] on the fragment. *)
Definition loads (s : string) : option value :=
  let cs := String.list_ascii_of_string s in
  '(v, rest) ← read_value (S (length cs)) cs;
  if bool_decide (skip_ws rest = []) then Some v else None.

Definition quoted (s : string) : string := dquote ++ s ++ dquote.

(** [json.dumps] on the fragment; a float has no rendering in it and is
    written [NaN]. *)
Fixpoint dumps (v : value) : string :=
  match v with
  | VNone => "null"
  | VBool true => "true"
  | VBool false => "false"
  | VInt z => pretty z
  | VFloat f => "NaN"
  | VStr s => quoted s
  | VList l => "[" ++ String.concat ", " (map dumps l) ++ "]"
  | VDict d =>
      "{" ++ String.concat ", " (map (λ kv, quoted kv.1 ++ ": " ++ dumps kv.2) d) ++ "}"
  end.

End Json.

(** [body.splitlines()] on line feeds: the lines of a body, without their
    terminators. *)
Fixpoint splitlines_from (cur : string) (s : string) : list string :=
  match s with
  | EmptyString => if decide (cur = "") then [] else [cur]
  | String c s' =>
      if decide (nat_of_ascii c = 10%nat) then cur :: splitlines_from "" s'
      else splitlines_from (cur ++ String c "") s'
  end.

Definition splitlines (s : string) : list string := splitlines_from "" s.

Definition LF : string := String (ascii_of_nat 10) "".

(** * The client ([judini/codegpt.py]) *)

Module codegpt.


Definition base_url : string := "https://api-beta.codegpt.co/api/v1".
Definition JUDINI_TUTORIAL : string := "https://api-beta.codegpt.co/api/v1/docs".

(** The client object: [headers] is a reference to its dictionary. *)
Record CodeGPTPlus := {
  headers : nat;
  is_streaming : bool;
}.

(** What [chat_completion] returns: a value, or the generator that
    [handle_stream] made. *)
Inductive Returned (G : Type) : Type :=
| Value (v : value)
| Stream (g : G).
Arguments Value {G} v.
Arguments Stream {G} g.

(** The text of the exception raised on a response that is not a 200. *)
Definition api_response_was (response : Response) : string :=
  "JUDINI: API Response was: " ++ pretty (status_code response) ++ " "
    ++ text response ++ " " ++ JUDINI_TUTORIAL.

(** [v[k]] *)
Definition getitem (k : string) (v : value) : Res value :=
  match v with
  | VDict d => match dict_get k d with Some x => Ok x | None => Raise (KeyError k) end
  | _ => Raise TypeError
  end.

(** The elements a [for] loop over a value visits. *)
Definition py_iter (v : value) : Res (list value) :=
  match v with
  | VList l => Ok l
  | VDict d => Ok (VStr <$> dict_keys d)
  | VStr s => Ok ((λ c, VStr (String c "")) <$> String.list_ascii_of_string s)
  | _ => Raise TypeError
  end.

(** [[f(x) for x in l]]: the first exception ends the comprehension. *)
Fixpoint comprehension (f : value → Res value) (l : list value) : Res (list value) :=
  match l with
  | [] => Ok []
  | x :: l' =>
      match f x with
      | Raise e => Raise e
      | Ok y => match comprehension f l' with
                | Raise e => Raise e
                | Ok ys => Ok (y :: ys)
                end
      end
  end.

Section Client.
(** Python's [json.dumps] and [json.loads] ([None] for a document that
    does not parse). *)
Variable json_dumps : value → string.
Variable json_loads : string → option value.
(** The API server behind [requests]: its answer to a request, given all
    that happened before. *)
Variable server : list event → Request → Response.
(** [judini.utils.handle_stream] makes a generator, which runs only when
    it is iterated; [judini.utils.handle_non_stream] returns or raises. *)
Variable Generator : Type.
Variable handle_stream : Response → Format → Generator.
Variable handle_non_stream : Response → Format → Res value.
(** The constructors of [judini.types], applied to a decoded JSON object. *)
Variable Agent : value → Res value.
Variable Document : value → Res value.
(** [mimetypes.guess_type(path)[0]] and [os.path.basename]. *)
Variable guess_type : string → option string.
Variable basename : string → string.

(** The request goes out and the server's answer comes back. *)
Definition send (req : Request) : M Response :=
  λ w, (Ok (server (trace w) req), log (Http req) w).

(** [requests.<method>(url, headers=..., data=..., stream=..., files=...)]:
    the headers are read when the call is made. *)
Definition requests (method : Method) (url : string) (hdrs : nat)
    (data : option string) (stream : bool) (upload : option Upload) : M Response :=
  h ← deref hdrs;
  send {| req_method := method; req_url := url; req_headers := h;
          req_data := data; req_stream := stream; req_files := upload |}.

(** [response.json()] *)
Definition response_json (response : Response) : M value :=
  match json_loads (text response) with
  | Some v => mret v
  | None => raise (JSONDecodeError (text response))
  end.

(** [CodeGPTPlus.__init__] *)
Definition __init__ (api_key org_id : option string) : M CodeGPTPlus :=
  api_key ←
    (if negb (truthy (from_option VStr VNone api_key)) then
       api_key ← getenv "CODEGPT_API_KEY";
       if negb (truthy (from_option VStr VNone api_key)) then
         raise (Exception ("JUDINI: API key not found. Please set the CODEGPT_API_KEY"
                           ++ " environment variable or pass it as an argument."))
       else mret (default "" api_key)
     else mret (default "" api_key));
  hdrs ← new_dict (<["Authorization" := "Bearer " ++ api_key]>
                   (<["Content-Type" := "application/json"]> ∅));
  org_id ←
    (if negb (truthy (from_option VStr VNone org_id)) then getenv "CODEGPT_ORG_ID"
     else mret org_id);
  (if truthy (from_option VStr VNone org_id)
   then setitem hdrs "CodeGPT-Org-Id" (default "" org_id)
   else mret ());;
  mret {| headers := hdrs; is_streaming := false |}.

(** The dictionary that [chat_completion] serializes as the request body. *)
Definition chat_payload (agent_id : string) (messages : list value) (stream : bool) : value :=
  VDict [("agentId", VStr agent_id);
         ("messages", VList messages);
         ("stream", VBool stream);
         ("format", VStr "json")].

(** [CodeGPTPlus.chat_completion] *)
Definition chat_completion (self : CodeGPTPlus) (agent_id : string)
    (messages : list value) (stream : bool) (format : string) : M (Returned Generator) :=
  if decide (length messages = 0) then
    raise (ValueError "JUDINI: messages array should not be empty")
  else if negb (truthy (VStr agent_id)) then
    raise (ValueError "JUDINI: agent_id should not be empty")
  else
    match Format_of format with
    | None => raise (ValueError ("JUDINI: format should be either " ++ dquote ++ "json"
                                   ++ dquote ++ " or " ++ dquote ++ "text" ++ dquote))
    | Some fmt =>
        hdrs ← dict_copy (headers self);
        setitem hdrs "media_type" "text/event-stream";;
        let payload := json_dumps (chat_payload agent_id messages stream) in
        response ← requests POST (base_url ++ "/chat/completions") hdrs
                     (Some payload) stream None;
        if decide (status_code response ≠ 200%Z) then
          raise (Exception (api_response_was response))
        else if stream then
          emit (HandleStream response fmt);;
          mret (Stream (handle_stream response fmt))
        else
          emit (HandleNonStream response fmt);;
          v ← lift (handle_non_stream response fmt);
          mret (Value v)
    end.

(** [CodeGPTPlus.get_agents] *)
Definition get_agents (self : CodeGPTPlus) : M value :=
  response ← requests GET (base_url ++ "/agent") (headers self) None false None;
  if decide (status_code response ≠ 200%Z) then
    raise (Exception (api_response_was response))
  else
    agent_lists ← response_json response;
    agent_dicts ← lift (py_iter agent_lists);
    agents ← lift (comprehension Agent agent_dicts);
    mret (VList agents).

(** [CodeGPTPlus.get_agent] *)
Definition get_agent (self : CodeGPTPlus) (agent_id : string) : M value :=
  response ← requests GET (base_url ++ "/agent/" ++ agent_id ++ "?populate=agent_documents")
               (headers self) None false None;
  if decide (status_code response ≠ 200%Z) then
    raise (Exception (api_response_was response))
  else
    d ← response_json response;
    lift (Agent d).

(** [CodeGPTPlus.create_agent] *)
Definition create_agent (self : CodeGPTPlus)
    (name model prompt welcome topk temperature : value) : M value :=
  let payload := json_dumps (VDict [("name", name); ("model", model);
                                    ("prompt", prompt); ("welcome", welcome);
                                    ("topk", topk); ("temperature", temperature)]) in
  response ← requests POST (base_url ++ "/agent") (headers self) (Some payload) false None;
  if decide (status_code response ≠ 200%Z) then
    raise (Exception (api_response_was response))
  else
    d ← response_json response;
    lift (Agent d).

(** The dictionary that [update_agent] fills before it checks it:
    one [if x: payload[k] = x] per optional parameter. *)
Definition update_payload
    (name model prompt welcome topk temperature is_public pincode : value)
    : list (string * value) :=
  let payload := [] in
  let payload := if truthy name then dict_set "name" name payload else payload in
  let payload := if truthy model then dict_set "model" model payload else payload in
  let payload := if truthy prompt then dict_set "prompt" prompt payload else payload in
  let payload := if truthy welcome then dict_set "welcome" welcome payload else payload in
  let payload := if truthy topk then dict_set "topk" topk payload else payload in
  let payload := if truthy temperature
                 then dict_set "temperature" temperature payload else payload in
  let payload := if truthy is_public
                 then dict_set "is_public" is_public payload else payload in
  let payload := if truthy pincode then dict_set "pincode" pincode payload else payload in
  payload.

(** [CodeGPTPlus.update_agent] *)
Definition update_agent (self : CodeGPTPlus) (agent_id : string)
    (name model prompt welcome topk temperature is_public pincode : value) : M value :=
  if negb (truthy (VStr agent_id)) then
    raise (ValueError "JUDINI: agent_id should not be empty")
  else
    let payload :=
      update_payload name model prompt welcome topk temperature is_public pincode in
    if negb (truthy (VDict payload)) then
      raise (ValueError "JUDINI: At least one parameter should be provided")
    else
      let payload := json_dumps (VDict payload) in
      response ← requests PATCH (base_url ++ "/agent/" ++ agent_id) (headers self)
                   (Some payload) false None;
      if decide (status_code response ≠ 200%Z) then
        raise (Exception (api_response_was response))
      else
        d ← response_json response;
        lift (Agent d).

(** [CodeGPTPlus.delete_agent] *)
Definition delete_agent (self : CodeGPTPlus) (agent_id : string) : M value :=
  response ← requests DELETE (base_url ++ "/agent/" ++ agent_id) (headers self)
               None false None;
  if decide (status_code response ≠ 200%Z) then
    raise (Exception (api_response_was response))
  else
    emit (Printed "Agent deleted successfully");;
    mret VNone.

(** [CodeGPTPlus.update_agent_documents] *)
Definition update_agent_documents (self : CodeGPTPlus) (agent_id : string)
    (document_ids : list string) : M value :=
  raise (NotImplementedError "JUDINI: update_agent_documents is not implemented").

(** [CodeGPTPlus.get_documents] *)
Definition get_documents (self : CodeGPTPlus) : M value :=
  response ← requests GET (base_url ++ "/document") (headers self) None false None;
  if decide (status_code response ≠ 200%Z) then
    raise (Exception (api_response_was response))
  else
    document_lists ← response_json response;
    document_dicts ← lift (py_iter document_lists);
    documents ← lift (comprehension Document document_dicts);
    mret (VList documents).

(** [CodeGPTPlus.get_document] *)
Definition get_document (self : CodeGPTPlus) (document_id : string) : M value :=
  response ← requests GET (base_url ++ "/document/" ++ document_id) (headers self)
               None false None;
  if decide (status_code response ≠ 200%Z) then
    raise (Exception (api_response_was response))
  else
    d ← response_json response;
    lift (Document d).

(** [CodeGPTPlus.update_document_metadata] *)
Definition update_document_metadata (self : CodeGPTPlus) (document_id : string)
    (title description summary keywords language : value) : M value :=
  raise (NotImplementedError "JUDINI: update_document_metadata is not implemented").

(** [CodeGPTPlus.upload_document].  The check of existence comes first;
    [open] comes after the copy of the headers, and what it raises on a
    path that exists and cannot be opened is not caught. *)
Definition upload_document (self : CodeGPTPlus) (file_path : string) : M value :=
  found ← os_path_exists file_path;
  if negb found then
    raise (FileNotFoundError ("JUDINI: File not found: " ++ file_path))
  else
    let file_type := guess_type file_path in
    hdrs ← dict_copy (headers self);
    delitem hdrs "Content-Type";;
    file ← open_rb file_path;
    response ← requests POST (base_url ++ "/document") hdrs None false
                 (Some {| up_name := basename file_path;
                          up_content := file;
                          up_type := file_type |});
    if decide (status_code response ≠ 200%Z) then
      raise (Exception (api_response_was response))
    else
      response_json ← response_json response;
      documentId ← lift (getitem "documentId" response_json);
      mret (VDict [("id", documentId)]).

(** [CodeGPTPlus.delete_document] *)
Definition delete_document (self : CodeGPTPlus) (document_id : string) : M value :=
  response ← requests DELETE (base_url ++ "/document/" ++ document_id) (headers self)
               None false None;
  if decide (status_code response ≠ 200%Z) then
    raise (Exception (api_response_was response))
  else
    emit (Printed "Document deleted successfully");;
    mret VNone.

(** The call dispatched on a client, for statements about every method. *)
Inductive call : Type :=
| Call_chat_completion (agent_id : string) (messages : list value) (stream : bool)
    (format : string)
| Call_get_agents
| Call_get_agent (agent_id : string)
| Call_create_agent (name model prompt welcome topk temperature : value)
| Call_update_agent (agent_id : string)
    (name model prompt welcome topk temperature is_public pincode : value)
| Call_delete_agent (agent_id : string)
| Call_update_agent_documents (agent_id : string) (document_ids : list string)
| Call_get_documents
| Call_get_document (document_id : string)
| Call_update_document_metadata (document_id : string)
    (title description summary keywords language : value)
| Call_upload_document (file_path : string)
| Call_delete_document (document_id : string).

(** The world after a call, whatever it returned or raised. *)
Definition after (self : CodeGPTPlus) (c : call) (w : World) : World :=
  match c with
  | Call_chat_completion agent_id messages stream format =>
      (chat_completion self agent_id messages stream format w).2
  | Call_get_agents => (get_agents self w).2
  | Call_get_agent agent_id => (get_agent self agent_id w).2
  | Call_create_agent name model prompt welcome topk temperature =>
      (create_agent self name model prompt welcome topk temperature w).2
  | Call_update_agent agent_id name model prompt welcome topk temperature is_public pincode =>
      (update_agent self agent_id name model prompt welcome topk temperature
         is_public pincode w).2
  | Call_delete_agent agent_id => (delete_agent self agent_id w).2
  | Call_update_agent_documents agent_id document_ids =>
      (update_agent_documents self agent_id document_ids w).2
  | Call_get_documents => (get_documents self w).2
  | Call_get_document document_id => (get_document self document_id w).2
  | Call_update_document_metadata document_id title description summary keywords language =>
      (update_document_metadata self document_id title description summary
         keywords language w).2
  | Call_upload_document file_path => (upload_document self file_path w).2
  | Call_delete_document document_id => (delete_document self document_id w).2
  end.

(** The world after a sequence of calls on one client. *)
Definition after_all (self : CodeGPTPlus) (cs : list call) (w : World) : World :=
  foldl (λ w c, after self c w) w cs.

(** The headers of the request that [chat_completion] sends when the
    client's headers are [h]. *)
Definition chat_request (h : gmap string string) (agent_id : string)
    (messages : list value) (stream : bool) : Request :=
  {| req_method := POST;
     req_url := base_url ++ "/chat/completions";
     req_headers := <["media_type" := "text/event-stream"]> h;
     req_data := Some (json_dumps (chat_payload agent_id messages stream));
     req_stream := stream;
     req_files := None |}.

(** The world once that request is out: the copy of the headers is a new
    object, and the request is on the trace. *)
Definition chat_sent (h : gmap string string) (req : Request) (w : World) : World :=
  log (Http req)
    (set_heap (<[fresh (dom (heap w)) := <["media_type" := "text/event-stream"]> h]> (heap w)) w).

(** The text of the exception of a constructor that finds no key. *)
Definition key_not_found : string :=
  "JUDINI: API key not found. Please set the CODEGPT_API_KEY"
  ++ " environment variable or pass it as an argument.".

(** The headers the constructor leaves for a key and an organization:
    the organization has an entry when it is truthy. *)
Definition initial_headers (key : string) (org : option string) : gmap string string :=
  let h := <["Authorization" := "Bearer " ++ key]>
             (<["Content-Type" := "application/json"]> ∅) in
  if truthy (from_option VStr VNone org) then <["CodeGPT-Org-Id" := default "" org]> h
  else h.

(** A request without a stream and without a file, as every method but
    [chat_completion] and [upload_document] sends it. *)
Definition plain (method : Method) (url : string) (h : gmap string string)
    (data : option string) : Request :=
  {| req_method := method; req_url := url; req_headers := h; req_data := data;
     req_stream := false; req_files := None |}.

(** The result of [Agent] or [Document] on [response.json()]: the
    constructor applied to the parsed body. *)
Definition parsed (make : value → Res value) (response : Response) : Res value :=
  match json_loads (text response) with
  | None => Raise (JSONDecodeError (text response))
  | Some d => make d
  end.

(** The calls that parse the body of a 200 as JSON. *)
Definition parses_answer (c : call) : bool :=
  match c with
  | Call_get_agents | Call_get_agent _ | Call_create_agent _ _ _ _ _ _
  | Call_update_agent _ _ _ _ _ _ _ _ _ | Call_get_documents | Call_get_document _
  | Call_upload_document _ => true
  | _ => false
  end.

(** The request of [upload_document] for a file and its content, when the
    client's headers are [h]. *)
Definition upload_request (h : gmap string string) (file_path content : string) : Request :=
  {| req_method := POST;
     req_url := base_url ++ "/document";
     req_headers := delete "Content-Type" h;
     req_data := None;
     req_stream := false;
     req_files := Some {| up_name := basename file_path; up_content := content;
                          up_type := guess_type file_path |} |}.

(** A call with what it returns or raises; a value is returned as it is. *)
Definition perform (self : CodeGPTPlus) (c : call) : M (Returned Generator) :=
  match c with
  | Call_chat_completion agent_id messages stream format =>
      chat_completion self agent_id messages stream format
  | Call_get_agents => v ← get_agents self; mret (Value v)
  | Call_get_agent agent_id => v ← get_agent self agent_id; mret (Value v)
  | Call_create_agent name model prompt welcome topk temperature =>
      v ← create_agent self name model prompt welcome topk temperature; mret (Value v)
  | Call_update_agent agent_id name model prompt welcome topk temperature is_public pincode =>
      v ← update_agent self agent_id name model prompt welcome topk temperature
            is_public pincode;
      mret (Value v)
  | Call_delete_agent agent_id => v ← delete_agent self agent_id; mret (Value v)
  | Call_update_agent_documents agent_id document_ids =>
      v ← update_agent_documents self agent_id document_ids; mret (Value v)
  | Call_get_documents => v ← get_documents self; mret (Value v)
  | Call_get_document document_id => v ← get_document self document_id; mret (Value v)
  | Call_update_document_metadata document_id title description summary keywords language =>
      v ← update_document_metadata self document_id title description summary
            keywords language;
      mret (Value v)
  | Call_upload_document file_path => v ← upload_document self file_path; mret (Value v)
  | Call_delete_document document_id => v ← delete_document self document_id; mret (Value v)
  end.

End Client.
End codegpt.

(** * The package: the client with the decoders of [judini.utils] *)

Module judini.

(** [CodeGPTPlus.chat_completion] as the package runs it, with
    [handle_stream] and [handle_non_stream] of [judini.utils]. *)
Definition chat_completion (json_dumps : value → string)
    (json_loads : string → option value)
    (server : list event → Request → Response)
    : codegpt.CodeGPTPlus → string → list value → bool → string
      → M (codegpt.Returned utils.StreamDecoder) :=
  codegpt.chat_completion json_dumps server utils.StreamDecoder
    utils.handle_stream (utils.handle_non_stream json_loads).

End judini.

(** * Sample data

    A constructed client, a server with a fixed answer, and the bodies of
    some answers, for the examples that run the definitions above. *)

Module Sample.

(** Before the client is made: no object, no call, one file and one
    directory. *)
Definition initial : World :=
  {| heap := ∅; trace := []; environ := ∅;
     files := {["notes.txt" := "Call me Ishmael."]};
     unopenable := {["reports" := IsADirectoryError "reports"]} |}.

(** [CodeGPTPlus(api_key='sk-test')] *)
Definition client : codegpt.CodeGPTPlus :=
  {| codegpt.headers := 0; codegpt.is_streaming := false |}.

Definition client_headers : gmap string string :=
  <["Authorization" := "Bearer sk-test"]> (<["Content-Type" := "application/json"]> ∅).

Definition world : World := (codegpt.__init__ (Some "sk-test") None initial).2.

Definition agent : string := "00000000-0000-0000-0000-000000000000".

Definition said (role content : string) : value :=
  VDict [("role", VStr role); ("content", VStr content)].

Definition hello : value := said "user" "Hello, World!".

Definition conversation : list value :=
  [said "system" "Be brief."; said "user" "Hello, World!";
   said "assistant" "Hello."; said "user" "Bye."].

(** An answer with a status and a body. *)
Definition answer (status : Z) (body : string) : Response :=
  {| status_code := status; text := body; iter_lines := splitlines body |}.

(** A server that gives the same answer to every request. *)
Definition server (response : Response) : list event → Request → Response :=
  λ _ _, response.

(** A record of the event stream, as it is on the wire. *)
Definition frame (payload : string) : string := "data: " ++ payload ++ LF ++ LF.

Definition delta (s : string) : value := VDict [("text", VStr s)].

Definition overloaded : value := VDict [("error", VStr "overloaded")].

(** Two content frames, an error frame and a content frame after it. *)
Definition failing_stream : Response :=
  answer 200 (frame (Json.dumps (delta "Hel")) ++ frame (Json.dumps (delta "lo"))
              ++ frame (Json.dumps overloaded) ++ frame (Json.dumps (delta "!"))).

(** The stream [data: {"text":"Hel"}], [data: {"text":"lo"}],
    [data: [DONE]] with its blank lines, character by character. *)
Definition compact (s : string) : string :=
  "{" ++ Json.quoted "text" ++ ":" ++ Json.quoted s ++ "}".

Definition hello_stream : Response :=
  answer 200 (frame (compact "Hel") ++ frame (compact "lo") ++ frame "[DONE]").

(** The same text as one JSON document. *)
Definition hello_whole : Response := answer 200 (Json.dumps (delta "Hello")).

(** A server that streams [hello_stream] and otherwise sends [hello_whole]. *)
Definition hello_server : list event → Request → Response :=
  λ _ req, if req_stream req then hello_stream else hello_whole.

(** A content frame, a keep-alive that is not JSON, a content frame. *)
Definition noisy_stream : Response :=
  answer 200 (frame (Json.dumps (delta "Hel")) ++ frame "ping"
              ++ frame (Json.dumps (delta "lo"))).

(** A body that is not JSON, and a JSON body without the text. *)
Definition garbled : Response := answer 200 "<html>Bad Gateway</html>".
Definition no_text : Response := answer 200 (Json.dumps (VDict [("id", VInt 7)])).

(** Stand-ins for the constructors of [judini.types] and for [mimetypes]
    and [os.path]. *)
Definition as_is (v : value) : Res value := Ok v.
Definition no_type (path : string) : option string := None.
Definition whole_path (path : string) : string := path.

(** Answers that are not a 200. *)
Definition not_found : Response := answer 404 "Agent not found".
Definition created : Response := answer 201 (Json.dumps (delta "Hello")).

(** An environment with a key and an organization. *)
Definition with_env : World :=
  {| heap := ∅; trace := [];
     environ := <["CODEGPT_API_KEY" := "sk-env"]> {["CODEGPT_ORG_ID" := "org-1"]};
     files := ∅; unopenable := ∅ |}.

(** Two agents as the server lists them, and a list with a number between
    them. *)
Definition ada : value := VDict [("id", VStr "a1"); ("name", VStr "Ada")].
Definition bob : value := VDict [("id", VStr "b2"); ("name", VStr "Bob")].
Definition listing : Response := answer 200 (Json.dumps (VList [ada; bob])).
Definition broken_listing : Response := answer 200 (Json.dumps (VList [ada; VInt 3; bob])).

(** A constructor that takes a dictionary and nothing else. *)
Definition record_only (v : value) : Res value :=
  match v with
  | VDict _ => Ok v
  | _ => Raise TypeError
  end.

(** The answer to an upload. *)
Definition uploaded : Response :=
  answer 200 (Json.dumps (VDict [("documentId", VStr "doc-1")])).

End Sample.

(** * Facts about dictionaries *)

Section dict_facts.
Context {A : Type}.
Implicit Types (k : string) (v : A) (d : list (string * A)).

Lemma dict_get_set_eq k v d : dict_get k (dict_set k v d) = Some v.
Proof.
  induction d as [|[k' v'] d IH]; simpl.
  - by rewrite decide_True.
  - destruct (decide (k = k')) as [->|Hne]; simpl.
    + by rewrite decide_True.
    + by rewrite decide_False.
Qed.

Lemma dict_get_set_ne k k' v d :
  k ≠ k' → dict_get k' (dict_set k v d) = dict_get k' d.
Proof.
  intros Hne. induction d as [|[k0 v0] d IH]; simpl.
  - rewrite decide_False; [done | congruence].
  - destruct (decide (k = k0)) as [->|Hne0]; simpl.
    + rewrite !decide_False; [done | congruence | congruence].
    + destruct (decide (k' = k0)); [done | apply IH].
Qed.

Lemma dict_set_nonempty k v d : dict_set k v d ≠ [].
Proof. destruct d as [|[k' v'] d]; simpl; [done | by case_decide]. Qed.

End dict_facts.

(** * Facts about the client *)

Section ClientFacts.
Import codegpt.
Variable json_dumps : value → string.
Variable json_loads : string → option value.
Variable server : list event → Request → Response.
Variable Generator : Type.
Variable handle_stream : Response → Format → Generator.
Variable handle_non_stream : Response → Format → Res value.
Variable Agent : value → Res value.
Variable Document : value → Res value.
Variable guess_type : string → option string.
Variable basename : string → string.

Local Abbreviation requests := (codegpt.requests server).
Local Abbreviation response_json := (codegpt.response_json json_loads).
Local Abbreviation chat_request := (codegpt.chat_request json_dumps).
Local Abbreviation chat_completion :=
  (codegpt.chat_completion json_dumps server Generator handle_stream handle_non_stream).
Local Abbreviation get_agents := (codegpt.get_agents json_loads server Agent).
Local Abbreviation get_agent := (codegpt.get_agent json_loads server Agent).
Local Abbreviation create_agent := (codegpt.create_agent json_dumps json_loads server Agent).
Local Abbreviation update_agent := (codegpt.update_agent json_dumps json_loads server Agent).
Local Abbreviation delete_agent := (codegpt.delete_agent server).
Local Abbreviation get_documents := (codegpt.get_documents json_loads server Document).
Local Abbreviation get_document := (codegpt.get_document json_loads server Document).
Local Abbreviation upload_document :=
  (codegpt.upload_document json_loads server guess_type basename).
Local Abbreviation delete_document := (codegpt.delete_document server).
Local Abbreviation after :=
  (codegpt.after json_dumps json_loads server Generator handle_stream handle_non_stream
     Agent Document guess_type basename).
Local Abbreviation after_all :=
  (codegpt.after_all json_dumps json_loads server Generator handle_stream handle_non_stream
     Agent Document guess_type basename).

Lemma truthy_VStr (s : string) : truthy (VStr s) = bool_decide (s ≠ "").
Proof.
  unfold truthy. destruct (String.eqb_spec s "") as [->|Hne].
  - symmetry. apply bool_decide_eq_false. by intros H.
  - symmetry. by apply bool_decide_eq_true.
Qed.

Lemma Format_of_Some (s : string) (fmt : Format) :
  Format_of s = Some fmt ↔ (s = "json" ∧ fmt = Fjson) ∨ (s = "text" ∧ fmt = Ftext).
Proof.
  unfold Format_of. destruct fmt; repeat case_decide; subst; split;
    try done; try (intros [[? ?]|[? ?]]; done); try (by left); by right.
Qed.

Lemma Format_of_None (s : string) : Format_of s = None ↔ s ∉ ["json"; "text"].
Proof.
  unfold Format_of. rewrite !not_elem_of_cons.
  repeat case_decide; subst; split; try done; try tauto.
  intros _. split; [done|]. split; [done|]. apply not_elem_of_nil.
Qed.

Lemma Format_of_elem (s : string) (fmt : Format) :
  Format_of s = Some fmt → s ∈ ["json"; "text"].
Proof.
  intros [[-> _]|[-> _]]%Format_of_Some;
    [apply list_elem_of_here | apply list_elem_of_further, list_elem_of_here].
Qed.

Lemma added_app (w w' : World) (evs : list event) :
  trace w' = (trace w ++ evs)%list → added w w' = evs.
Proof. unfold added. intros ->. by rewrite drop_app_length. Qed.

Lemma fresh_heap_None (w : World) : heap w !! fresh (dom (heap w)) = None.
Proof. apply not_elem_of_dom, is_fresh. Qed.

Lemma fresh_heap_ne (w : World) (l : nat) :
  is_Some (heap w !! l) → fresh (dom (heap w)) ≠ l.
Proof. intros [d Hd] <-. by rewrite fresh_heap_None in Hd. Qed.

Lemma mbind_unfold {A B} (m : M A) (f : A → M B) (w : World) :
  (m ≫= f) w = match m w with
               | (Ok a, w') => f a w'
               | (Raise e, w') => (Raise e, w')
               end.
Proof. reflexivity. Qed.

Lemma dict_copy_live (l : nat) (d : gmap string string) (w : World) :
  heap w !! l = Some d →
  dict_copy l w = (Ok (fresh (dom (heap w))),
                   set_heap (<[fresh (dom (heap w)) := d]> (heap w)) w).
Proof. intros Hl. unfold dict_copy. rewrite mbind_unfold. unfold deref. by rewrite Hl. Qed.

Lemma dict_copy_dangling (l : nat) (w : World) :
  heap w !! l = None → dict_copy l w = (Raise DanglingReference, w).
Proof. intros Hl. unfold dict_copy. rewrite mbind_unfold. unfold deref. by rewrite Hl. Qed.

Lemma setitem_live (l : nat) (k v : string) (d : gmap string string) (w : World) :
  heap w !! l = Some d →
  setitem l k v w = (Ok (), set_heap (<[l := <[k := v]> d]> (heap w)) w).
Proof. intros Hl. unfold setitem. by rewrite Hl. Qed.

Lemma requests_live method url (l : nat) data stream upload (d : gmap string string)
    (w : World) :
  heap w !! l = Some d →
  let req := {| req_method := method; req_url := url; req_headers := d;
                req_data := data; req_stream := stream; req_files := upload |} in
  requests method url l data stream upload w = (Ok (server (trace w) req), log (Http req) w).
Proof. intros Hl req. unfold codegpt.requests. rewrite mbind_unfold. unfold deref. by rewrite Hl. Qed.

Lemma requests_dangling method url (l : nat) data stream upload (w : World) :
  heap w !! l = None →
  requests method url l data stream upload w = (Raise DanglingReference, w).
Proof. intros Hl. unfold codegpt.requests. rewrite mbind_unfold. unfold deref. by rewrite Hl. Qed.

(** With valid arguments on a live client, [chat_completion] copies the
    headers, sends one request and branches on the status of the answer. *)
Lemma chat_completion_sends self agent_id messages stream format fmt h w :
  messages ≠ [] → agent_id ≠ "" → Format_of format = Some fmt →
  heap w !! headers self = Some h →
  let req := chat_request h agent_id messages stream in
  let response := server (trace w) req in
  let w1 := chat_sent h req w in
  chat_completion self agent_id messages stream format w =
    if decide (status_code response ≠ 200%Z) then
      (Raise (Exception (api_response_was response)), w1)
    else if stream then
      (Ok (Stream (handle_stream response fmt)), log (HandleStream response fmt) w1)
    else
      (match handle_non_stream response fmt with
       | Ok v => Ok (Value v)
       | Raise e => Raise e
       end, log (HandleNonStream response fmt) w1).
Proof.
  intros Hm Ha Hf Hh req response w1. unfold codegpt.chat_completion.
  rewrite decide_False by (by destruct messages).
  rewrite truthy_VStr, bool_decide_true by done. cbn [negb]. rewrite Hf.
  rewrite mbind_unfold, (dict_copy_live _ _ _ Hh).
  rewrite mbind_unfold, (setitem_live _ _ _ h) by apply lookup_insert_eq.
  cbn [heap set_heap]. rewrite insert_insert_eq.
  rewrite mbind_unfold.
  erewrite requests_live by (cbn [heap set_heap]; apply lookup_insert_eq).
  cbn [trace set_heap]. fold (chat_request h agent_id messages stream).
  fold req. fold response. fold (chat_sent h req w). fold w1.
  destruct (decide (status_code response ≠ 200%Z)); [done|].
  destruct stream; [done|].
  rewrite !mbind_unfold. unfold emit, lift, mret, M_ret.
  by destruct (handle_non_stream response fmt).
Qed.

Lemma chat_completion_dangling self agent_id messages stream format w :
  messages ≠ [] → agent_id ≠ "" → format ∈ ["json"; "text"] →
  heap w !! headers self = None →
  chat_completion self agent_id messages stream format w = (Raise DanglingReference, w).
Proof.
  intros Hm Ha Hf Hh. unfold codegpt.chat_completion.
  rewrite decide_False by (by destruct messages).
  rewrite truthy_VStr, bool_decide_true by done. cbn [negb].
  destruct (Format_of format) as [fmt|] eqn:Hfmt.
  - by rewrite mbind_unfold, dict_copy_dangling.
  - by apply Format_of_None in Hfmt.
Qed.

(** A call with an empty list of messages, an empty [agent_id] or an
    unknown [format] raises [ValueError] in the world it started in. *)
Lemma chat_completion_rejects self agent_id messages stream format w :
  messages = [] ∨ agent_id = "" ∨ format ∉ ["json"; "text"] →
  ∃ msg, chat_completion self agent_id messages stream format w
         = (Raise (ValueError msg), w).
Proof.
  intros Hbad. unfold codegpt.chat_completion.
  destruct (decide (length messages = 0)) as [|Hlen]; [by eexists|].
  rewrite truthy_VStr. case_bool_decide as Ha; cbn [negb]; [|by eexists].
  destruct (Format_of format) as [fmt|] eqn:Hf; [|by eexists].
  exfalso. destruct Hbad as [->|[->|Hfmt]]; [done|done|].
  apply Format_of_None in Hfmt. congruence.
Qed.

(** C6. A call of [chat_completion] with an empty list of messages, an
    empty [agent_id] or a [format] that is neither ['json'] nor ['text']
    raises [ValueError], and nothing has happened by then: the world is the
    one before the call, and the call has made no request. *)
Theorem chat_completion_validation self agent_id messages stream format w :
  messages = [] ∨ agent_id = "" ∨ format ∉ ["json"; "text"] →
  ∃ msg, chat_completion self agent_id messages stream format w
         = (Raise (ValueError msg), w)
         ∧ requests_of (added w (chat_completion self agent_id messages stream format w).2)
           = [].
Proof.
  intros Hbad.
  destruct (chat_completion_rejects self agent_id messages stream format w Hbad)
    as [msg Hmsg].
  exists msg. split; [done|]. rewrite Hmsg. cbn [snd].
  by rewrite (added_app w w []) by (by rewrite app_nil_r).
Qed.

(** What a call of [chat_completion] adds to the trace: nothing, or one
    request, made of the client's headers and the arguments, and after it
    at most the call of a decoder on the answer. *)
Lemma chat_completion_trace self agent_id messages stream format w :
  ∃ evs : list event,
    trace (chat_completion self agent_id messages stream format w).2 = (trace w ++ evs)%list ∧
    (evs = [] ∨
     ∃ h fmt, heap w !! headers self = Some h ∧ Format_of format = Some fmt ∧
       messages ≠ [] ∧ agent_id ≠ "" ∧
       let req := chat_request h agent_id messages stream in
       let response := server (trace w) req in
       evs = Http req ::
             (if decide (status_code response ≠ 200%Z) then []
              else if stream then [HandleStream response fmt]
              else [HandleNonStream response fmt])).
Proof.
  destruct (decide (messages = [])) as [Hm|Hm].
  { destruct (chat_completion_rejects self agent_id messages stream format w) as [msg ->];
      [by left|]. exists []. by rewrite app_nil_r; auto. }
  destruct (decide (agent_id = "")) as [Ha|Ha].
  { destruct (chat_completion_rejects self agent_id messages stream format w) as [msg ->];
      [by right; left|]. exists []. by rewrite app_nil_r; auto. }
  destruct (Format_of format) as [fmt|] eqn:Hf.
  2:{ destruct (chat_completion_rejects self agent_id messages stream format w) as [msg ->];
      [by right; right; apply Format_of_None|]. exists []. by rewrite app_nil_r; auto. }
  destruct (heap w !! headers self) as [h|] eqn:Hh.
  2:{ rewrite chat_completion_dangling; [|done|done| |done].
      - exists []. by rewrite app_nil_r; auto.
      - by eapply Format_of_elem. }
  rewrite (chat_completion_sends _ _ _ _ _ fmt h) by done. cbv zeta.
  eexists. split; [|right; exists h, fmt; repeat (split; [done|]); cbv zeta; reflexivity].
  destruct (decide (status_code _ ≠ 200%Z)); [done|].
  destruct stream; cbn [snd log trace chat_sent set_heap]; by rewrite <- app_assoc.
Qed.

Lemma requests_of_chat (req : Request) (response : Response) (stream : bool) (fmt : Format) :
  requests_of (Http req ::
               (if decide (status_code response ≠ 200%Z) then []
                else if stream then [HandleStream response fmt]
                else [HandleNonStream response fmt])) = [req].
Proof. by destruct (decide _), stream. Qed.

(** The requests of one call of [chat_completion]: none, or the one made
    of the client's headers and the arguments. *)
Lemma chat_completion_requests self agent_id messages stream format w :
  requests_of (added w (chat_completion self agent_id messages stream format w).2) = [] ∨
  ∃ h, heap w !! headers self = Some h ∧ messages ≠ [] ∧ agent_id ≠ "" ∧
       format ∈ ["json"; "text"] ∧
       requests_of (added w (chat_completion self agent_id messages stream format w).2)
       = [chat_request h agent_id messages stream].
Proof.
  destruct (chat_completion_trace self agent_id messages stream format w)
    as (evs & Htr & [->|(h & fmt & Hh & Hf & Hm & Ha & Hevs)]);
    rewrite (added_app _ _ _ Htr); [by left|].
  right. exists h. cbv zeta in Hevs. rewrite Hevs, requests_of_chat.
  repeat (split; [done|]). split; [|done].
  by eapply Format_of_elem.
Qed.

(** C5, amended.  With valid arguments on a live client, [chat_completion]
    sends its request and then: when the status of the answer is not 200
    (any other status, also another 2xx), it raises the exception whose
    text carries the status code and the raw body, and the answer is handed
    to no decoder; when the status is 200, the answer is handed to the
    decoder and the result is the decoder's. *)
Theorem chat_completion_status self agent_id messages stream format fmt h w :
  messages ≠ [] → agent_id ≠ "" → Format_of format = Some fmt →
  heap w !! headers self = Some h →
  let req := chat_request h agent_id messages stream in
  let response := server (trace w) req in
  let r := (chat_completion self agent_id messages stream format w).1 in
  let w' := (chat_completion self agent_id messages stream format w).2 in
  (status_code response ≠ 200%Z →
     r = Raise (Exception ("JUDINI: API Response was: " ++ pretty (status_code response)
                           ++ " " ++ text response ++ " " ++ JUDINI_TUTORIAL))
     ∧ added w w' = [Http req]
     ∧ decoded_of (added w w') = [])
  ∧ (status_code response = 200%Z →
     r = (if stream then Ok (Stream (handle_stream response fmt))
          else match handle_non_stream response fmt with
               | Ok v => Ok (Value v)
               | Raise e => Raise e
               end)
     ∧ added w w' = [Http req; if stream then HandleStream response fmt
                               else HandleNonStream response fmt]
     ∧ decoded_of (added w w') = [response]).
Proof.
  intros Hm Ha Hf Hh req response r w'. subst r w'.
  rewrite (chat_completion_sends _ _ _ _ _ fmt h) by done. cbv zeta.
  fold req. fold response. split; intros Hst.
  - rewrite decide_True by done. cbn [fst snd].
    assert (added w (chat_sent h req w) = [Http req]) as ->; [|done].
    by apply added_app.
  - rewrite decide_False by (by intros ?). destruct stream; cbn [fst snd].
    + assert (added w (log (HandleStream response fmt) (chat_sent h req w))
              = [Http req; HandleStream response fmt]) as ->; [|done].
      apply added_app. cbn [log trace chat_sent set_heap]. by rewrite <- app_assoc.
    + assert (added w (log (HandleNonStream response fmt) (chat_sent h req w))
              = [Http req; HandleNonStream response fmt]) as ->; [|done].
      apply added_app. cbn [log trace chat_sent set_heap]. by rewrite <- app_assoc.
Qed.

(** C7. For a list of messages that is not empty, every request that
    [chat_completion] sends carries the serialization of a payload whose
    [messages] entry is the caller's list itself: the same messages in the
    same order, none added and none removed.  With a valid [agent_id] and
    [format] on a live client it sends exactly one request. *)
Theorem chat_completion_messages_order self agent_id messages stream format w :
  messages ≠ [] →
  let w' := (chat_completion self agent_id messages stream format w).2 in
  (∀ req, req ∈ requests_of (added w w') →
     ∃ payload, req_data req = Some (json_dumps payload)
                ∧ value_get "messages" payload = Some (VList messages))
  ∧ (agent_id ≠ "" → format ∈ ["json"; "text"] → is_Some (heap w !! headers self) →
     length (requests_of (added w w')) = 1).
Proof.
  intros Hm w'. subst w'. split.
  - intros req Hreq.
    destruct (chat_completion_requests self agent_id messages stream format w)
      as [Hnone|(h & _ & _ & _ & _ & Hone)].
    + rewrite Hnone in Hreq. by apply elem_of_nil in Hreq.
    + rewrite Hone in Hreq. apply list_elem_of_singleton in Hreq as ->.
      by exists (chat_payload agent_id messages stream).
  - intros Ha Hf [h Hh].
    assert (∃ fmt, Format_of format = Some fmt) as [fmt Hfmt].
    { destruct (Format_of format) eqn:E; [by eexists|]. by apply Format_of_None in E. }
    destruct (chat_completion_trace self agent_id messages stream format w)
      as (evs & Htr & Hevs).
    rewrite (added_app _ _ _ Htr).
    rewrite (chat_completion_sends _ _ _ _ _ fmt h) in Htr by done. cbv zeta in Htr.
    destruct Hevs as [->|(h' & fmt' & _ & _ & _ & _ & ->)]; [|by rewrite requests_of_chat].
    exfalso. rewrite app_nil_r in Htr.
    destruct (decide (status_code _ ≠ 200%Z)); [|destruct stream];
      cbn [snd log trace chat_sent set_heap] in Htr;
      apply (f_equal length) in Htr; rewrite ?length_app in Htr; simpl in Htr; lia.
Qed.

(** C8. With valid arguments on a live client, [chat_completion] sends
    exactly one request; its data is the serialization of a payload whose
    [format] entry is ["json"], whatever the caller's [format]; and on a 200
    the answer goes to the decoder together with the caller's [format], whose
    result is the result of the call.  For any arguments: every request that
    is sent carries ["json"] as the payload's [format]; two calls that differ
    only in a valid [format] send the same requests; and a decoder that is
    called is called with the caller's [format]. *)
Theorem chat_completion_wire_format self agent_id messages stream format w :
  let r := (chat_completion self agent_id messages stream format w).1 in
  let w' := (chat_completion self agent_id messages stream format w).2 in
  (∀ fmt h, messages ≠ [] → agent_id ≠ "" → Format_of format = Some fmt →
     heap w !! headers self = Some h →
     let req := chat_request h agent_id messages stream in
     let response := server (trace w) req in
     requests_of (added w w') = [req]
     ∧ req_data req = Some (json_dumps (chat_payload agent_id messages stream))
     ∧ value_get "format" (chat_payload agent_id messages stream) = Some (VStr "json")
     ∧ (status_code response = 200%Z →
          added w w' = [Http req; if stream then HandleStream response fmt
                                  else HandleNonStream response fmt]
          ∧ r = (if stream then Ok (Stream (handle_stream response fmt))
                 else match handle_non_stream response fmt with
                      | Ok v => Ok (Value v)
                      | Raise e => Raise e
                      end)))
  ∧ (∀ req, req ∈ requests_of (added w w') →
       ∃ payload, req_data req = Some (json_dumps payload)
                  ∧ value_get "format" payload = Some (VStr "json"))
  ∧ (∀ format', format ∈ ["json"; "text"] → format' ∈ ["json"; "text"] →
       requests_of (added w (chat_completion self agent_id messages stream format' w).2)
       = requests_of (added w w'))
  ∧ (∀ response fmt,
       HandleStream response fmt ∈ added w w' ∨ HandleNonStream response fmt ∈ added w w' →
       Format_of format = Some fmt).
Proof.
  intros r w'. subst r w'. split; [|split; [|split]].
  - intros fmt h Hm Ha Hf Hh req response.
    rewrite (chat_completion_sends _ _ _ _ format fmt h) by done. cbv zeta.
    fold req. fold response. split; [|split; [done|split; [done|]]].
    + destruct (decide (status_code response ≠ 200%Z)); [|destruct stream];
        cbn [snd]; unfold added; cbn [log trace chat_sent set_heap];
        rewrite <- ?app_assoc, drop_app_length; done.
    + intros Hst. rewrite decide_False by (by intros ?).
      destruct stream; cbn [fst snd]; (split; [|done]);
        apply added_app; cbn [log trace chat_sent set_heap]; by rewrite <- app_assoc.
  - intros req Hreq.
    destruct (chat_completion_requests self agent_id messages stream format w)
      as [Hnone|(h & _ & _ & _ & _ & Hone)].
    + rewrite Hnone in Hreq. by apply elem_of_nil in Hreq.
    + rewrite Hone in Hreq. apply list_elem_of_singleton in Hreq as ->.
      by exists (chat_payload agent_id messages stream).
  - intros format' Hf Hf'.
    assert (∀ f, f ∈ ["json"; "text"] → ∃ fmt, Format_of f = Some fmt) as Hvalid.
    { intros f Hin. destruct (Format_of f) eqn:E; [by eexists|]. by apply Format_of_None in E. }
    destruct (Hvalid _ Hf) as [fmt Hfmt], (Hvalid _ Hf') as [fmt' Hfmt'].
    destruct (decide (messages = [])) as [Hm|Hm].
    { destruct (chat_completion_rejects self agent_id messages stream format w)
        as [? ->]; [by left|].
      by destruct (chat_completion_rejects self agent_id messages stream format' w)
        as [? ->]; [by left|]. }
    destruct (decide (agent_id = "")) as [Ha|Ha].
    { destruct (chat_completion_rejects self agent_id messages stream format w)
        as [? ->]; [by right; left|].
      by destruct (chat_completion_rejects self agent_id messages stream format' w)
        as [? ->]; [by right; left|]. }
    destruct (heap w !! headers self) as [h|] eqn:Hh.
    + rewrite (chat_completion_sends _ _ _ _ format fmt h),
        (chat_completion_sends _ _ _ _ format' fmt' h) by done. cbv zeta.
      destruct (decide (status_code _ ≠ 200%Z)); [done|].
      destruct stream; cbn [snd]; unfold added;
        cbn [log trace chat_sent set_heap]; rewrite <- !app_assoc, !drop_app_length; done.
    + rewrite !chat_completion_dangling by done. done.
  - intros response fmt Hin.
    destruct (chat_completion_trace self agent_id messages stream format w)
      as (evs & Htr & [->|(h & fmt' & Hh & Hf & Hm & Ha & Hevs)]);
      rewrite (added_app _ _ _ Htr) in Hin.
    { destruct Hin as [Hin|Hin]; by apply elem_of_nil in Hin. }
    cbv zeta in Hevs. rewrite Hf. f_equal. subst evs.
    destruct (decide (status_code _ ≠ 200%Z)), stream, Hin as [Hin|Hin];
      repeat (apply elem_of_cons in Hin as [Hin|Hin]; [congruence|]);
      by apply elem_of_nil in Hin.
Qed.

(** ** [update_agent] *)

(** The entry of each optional parameter in the payload of [update_agent]:
    the value when it is truthy, no entry otherwise. *)
Lemma update_payload_lookup name model prompt welcome topk temperature is_public pincode k v :
  (k, v) ∈ [("name", name); ("model", model); ("prompt", prompt); ("welcome", welcome);
            ("topk", topk); ("temperature", temperature); ("is_public", is_public);
            ("pincode", pincode)] →
  dict_get k (update_payload name model prompt welcome topk temperature is_public pincode)
  = if truthy v then Some v else None.
Proof.
  intros Hin. unfold codegpt.update_payload.
  repeat (apply elem_of_cons in Hin as [[= -> ->]|Hin];
          [destruct (truthy name), (truthy model), (truthy prompt), (truthy welcome),
             (truthy topk), (truthy temperature), (truthy is_public), (truthy pincode);
           reflexivity|]).
  by apply elem_of_nil in Hin.
Qed.

Lemma update_payload_empty name model prompt welcome topk temperature is_public pincode :
  Forall (λ v, truthy v = false)
    [name; model; prompt; welcome; topk; temperature; is_public; pincode] →
  update_payload name model prompt welcome topk temperature is_public pincode = [].
Proof.
  intros H. unfold codegpt.update_payload.
  repeat (apply Forall_cons in H as [-> H]). done.
Qed.

(** What a call of [update_agent] adds to the trace: nothing, or the one
    request that carries the payload. *)
Lemma update_agent_trace self agent_id name model prompt welcome topk temperature
    is_public pincode w :
  let payload := update_payload name model prompt welcome topk temperature is_public pincode in
  added w (update_agent self agent_id name model prompt welcome topk temperature
             is_public pincode w).2 = [] ∨
  ∃ h, added w (update_agent self agent_id name model prompt welcome topk temperature
                  is_public pincode w).2
       = [Http {| req_method := PATCH; req_url := base_url ++ "/agent/" ++ agent_id;
                  req_headers := h; req_data := Some (json_dumps (VDict payload));
                  req_stream := false; req_files := None |}].
Proof.
  intros payload. unfold codegpt.update_agent. fold payload.
  assert (added w w = []) as Hnil by (apply added_app; by rewrite app_nil_r).
  destruct (negb (truthy (VStr agent_id))); [by left|].
  destruct (negb (truthy (VDict payload))); [by left|].
  rewrite mbind_unfold.
  destruct (heap w !! headers self) as [h|] eqn:Hh.
  2:{ rewrite requests_dangling by done. by left. }
  erewrite requests_live by done. right. exists h.
  match goal with |- context [log (Http ?r) w] => set (req := r) end.
  assert (added w (log (Http req) w) = [Http req]) as Hone by by apply added_app.
  destruct (decide (status_code _ ≠ 200%Z)); [done|].
  rewrite mbind_unfold. unfold codegpt.response_json.
  destruct (json_loads _); [|done].
  unfold mret, M_ret, lift. by destruct (Agent _).
Qed.

(** C9. [update_agent] leaves out of the payload every optional parameter
    whose value is falsy ([None], [False], [0], [0.0], an empty string);
    the payload is what every request of the call carries; and a call with
    an [agent_id] whose optional parameters are all falsy raises the
    [ValueError] that asks for at least one parameter, with the world, and
    so the trace of requests, as before the call. *)
Theorem update_agent_falsy self agent_id name model prompt welcome topk temperature
    is_public pincode w :
  let payload := update_payload name model prompt welcome topk temperature is_public pincode in
  let w' := (update_agent self agent_id name model prompt welcome topk temperature
               is_public pincode w).2 in
  (∀ k v, (k, v) ∈ [("name", name); ("model", model); ("prompt", prompt);
                    ("welcome", welcome); ("topk", topk); ("temperature", temperature);
                    ("is_public", is_public); ("pincode", pincode)] →
          truthy v = false → dict_get k payload = None)
  ∧ (∀ req, req ∈ requests_of (added w w') → req_data req = Some (json_dumps (VDict payload)))
  ∧ (agent_id ≠ "" →
     Forall (λ v, truthy v = false)
       [name; model; prompt; welcome; topk; temperature; is_public; pincode] →
     update_agent self agent_id name model prompt welcome topk temperature is_public pincode w
     = (Raise (ValueError "JUDINI: At least one parameter should be provided"), w)).
Proof.
  intros payload w'. subst payload w'. split; [|split].
  - intros k v Hin Hv. rewrite (update_payload_lookup _ _ _ _ _ _ _ _ k v Hin). by rewrite Hv.
  - intros req Hreq.
    destruct (update_agent_trace self agent_id name model prompt welcome topk temperature
                is_public pincode w) as [Hnone|[h Hone]].
    + rewrite Hnone in Hreq. by apply elem_of_nil in Hreq.
    + rewrite Hone in Hreq. by apply list_elem_of_singleton in Hreq as ->.
  - intros Ha Hfalsy. unfold codegpt.update_agent.
    rewrite truthy_VStr, bool_decide_true by done. cbn [negb].
    by rewrite update_payload_empty.
Qed.

(** ** The client's headers *)

Lemma keeps_ret {A} l (a : A) : keeps l (mret a).
Proof. by intros w. Qed.

Lemma keeps_raise {A} l e : keeps l (raise (A := A) e).
Proof. by intros w. Qed.

Lemma keeps_lift {A} l (r : Res A) : keeps l (lift r).
Proof. by intros w. Qed.

Lemma keeps_emit l e : keeps l (emit e).
Proof. by intros w. Qed.

Lemma keeps_getenv l k : keeps l (getenv k).
Proof. by intros w. Qed.

Lemma keeps_os_path_exists l path : keeps l (os_path_exists path).
Proof. by intros w. Qed.

Lemma keeps_open_rb l path : keeps l (open_rb path).
Proof. intros w. unfold open_rb. by destruct (files w !! path), (unopenable w !! path). Qed.

Lemma keeps_bind {A B} l (m : M A) (f : A → M B) :
  keeps l m → (∀ a, keeps l (f a)) → keeps l (m ≫= f).
Proof.
  intros Hm Hf w. rewrite mbind_unfold. specialize (Hm w).
  destruct (m w) as [[a|e] w1]; cbn [snd] in *; [|done].
  by rewrite Hf.
Qed.

Lemma keeps_requests l method url hdrs data stream upload :
  keeps l (requests method url hdrs data stream upload).
Proof.
  intros w. destruct (heap w !! hdrs) as [d|] eqn:Hd.
  - by erewrite requests_live.
  - by rewrite requests_dangling.
Qed.

Lemma keeps_response_json l response : keeps l (response_json response).
Proof. intros w. unfold codegpt.response_json. by destruct (json_loads _). Qed.

(** An update of another object keeps the one at [l]. *)
Lemma keeps_setitem_ne l l' k v : l' ≠ l → keeps l (setitem l' k v).
Proof.
  intros Hne w. unfold setitem. destruct (heap w !! l'); [|done].
  cbn [snd heap set_heap]. by rewrite lookup_insert_ne.
Qed.

Lemma keeps_delitem_ne l l' k : l' ≠ l → keeps l (delitem l' k).
Proof.
  intros Hne w. unfold delitem. destruct (heap w !! l') as [d|]; [|done].
  destruct (d !! k); [|done]. cbn [snd heap set_heap]. by rewrite lookup_insert_ne.
Qed.

(** A copy of the object at [l] is another object, and what runs on the
    copy keeps the original. *)
Lemma keeps_bind_copy {B} l (f : nat → M B) :
  (∀ l', l' ≠ l → keeps l (f l')) → keeps l (dict_copy l ≫= f).
Proof.
  intros Hf w. rewrite mbind_unfold.
  destruct (heap w !! l) as [d|] eqn:Hd.
  - rewrite (dict_copy_live _ _ _ Hd).
    rewrite Hf by (by apply fresh_heap_ne).
    cbn [heap set_heap]. rewrite lookup_insert_ne; [done|]. by apply fresh_heap_ne.
  - by rewrite dict_copy_dangling.
Qed.

Create HintDb keeps discriminated.
#[local] Hint Resolve keeps_ret keeps_raise keeps_lift keeps_emit keeps_getenv
  keeps_os_path_exists keeps_open_rb keeps_requests keeps_response_json
  keeps_setitem_ne keeps_delitem_ne : keeps.

(** One step through the body of a method. *)
Ltac keeps_step :=
  match goal with
  | |- keeps _ (dict_copy _ ≫= _) => apply keeps_bind_copy; intros ? ?
  | |- keeps _ (_ ≫= _) => apply keeps_bind; [|intros ?]
  | |- keeps _ (if ?b then _ else _) => destruct b
  | |- keeps _ (match ?x with _ => _ end) => destruct x
  | |- keeps _ _ => solve [auto with keeps]
  end.

Lemma chat_completion_keeps self agent_id messages stream format :
  keeps (headers self) (chat_completion self agent_id messages stream format).
Proof. unfold codegpt.chat_completion. repeat keeps_step. Qed.

Lemma upload_document_keeps self file_path :
  keeps (headers self) (upload_document self file_path).
Proof. unfold codegpt.upload_document. repeat keeps_step. Qed.

Lemma get_agents_keeps self : keeps (headers self) (get_agents self).
Proof. unfold codegpt.get_agents. repeat keeps_step. Qed.

Lemma get_agent_keeps self agent_id : keeps (headers self) (get_agent self agent_id).
Proof. unfold codegpt.get_agent. repeat keeps_step. Qed.

Lemma create_agent_keeps self name model prompt welcome topk temperature :
  keeps (headers self) (create_agent self name model prompt welcome topk temperature).
Proof. unfold codegpt.create_agent. repeat keeps_step. Qed.

Lemma update_agent_keeps self agent_id name model prompt welcome topk temperature
    is_public pincode :
  keeps (headers self)
    (update_agent self agent_id name model prompt welcome topk temperature is_public pincode).
Proof. unfold codegpt.update_agent. repeat keeps_step. Qed.

Lemma delete_agent_keeps self agent_id : keeps (headers self) (delete_agent self agent_id).
Proof. unfold codegpt.delete_agent. repeat keeps_step. Qed.

Lemma get_documents_keeps self : keeps (headers self) (get_documents self).
Proof. unfold codegpt.get_documents. repeat keeps_step. Qed.

Lemma get_document_keeps self document_id :
  keeps (headers self) (get_document self document_id).
Proof. unfold codegpt.get_document. repeat keeps_step. Qed.

Lemma delete_document_keeps self document_id :
  keeps (headers self) (delete_document self document_id).
Proof. unfold codegpt.delete_document. repeat keeps_step. Qed.

(** Every call keeps the client's headers. *)
Lemma after_keeps self c w : heap (after self c w) !! headers self = heap w !! headers self.
Proof.
  destruct c; cbn [codegpt.after].
  - apply chat_completion_keeps.
  - apply get_agents_keeps.
  - apply get_agent_keeps.
  - apply create_agent_keeps.
  - apply update_agent_keeps.
  - apply delete_agent_keeps.
  - done.
  - apply get_documents_keeps.
  - apply get_document_keeps.
  - done.
  - apply upload_document_keeps.
  - apply delete_document_keeps.
Qed.

Lemma after_all_keeps self cs w :
  heap (after_all self cs w) !! headers self = heap w !! headers self.
Proof.
  revert w. induction cs as [|c cs IH]; intros w; [done|].
  cbn [codegpt.after_all foldl]. fold (after_all self cs (after self c w)).
  by rewrite IH, after_keeps.
Qed.

(** The headers a constructed client holds: the content type, the
    authorization and, when there is one, the organization. *)
Lemma init_headers api_key org_id w0 self w :
  __init__ api_key org_id w0 = (Ok self, w) →
  ∃ h, heap w !! headers self = Some h
       ∧ h !! "Content-Type" = Some "application/json"
       ∧ is_Some (h !! "Authorization").
Proof.
  unfold codegpt.__init__. rewrite mbind_unfold.
  set (key := if negb (truthy (from_option VStr VNone api_key)) then _ else _).
  assert (∀ r w1, key w0 = (r, w1) → w1 = w0) as Hkey.
  { intros r w1. unfold key. destruct (negb (truthy (from_option VStr VNone api_key))).
    - rewrite mbind_unfold. unfold getenv.
      destruct (negb (truthy (from_option VStr VNone (environ w0 !! "CODEGPT_API_KEY"))));
        by intros [= _ <-].
    - by intros [= _ <-]. }
  destruct (key w0) as [[k|e] w1]; [|done]. rewrite (Hkey _ _ eq_refl).
  rewrite mbind_unfold. unfold new_dict at 1. rewrite mbind_unfold.
  set (org := if negb (truthy (from_option VStr VNone org_id)) then _ else _).
  set (w2 := set_heap _ w0).
  assert (∃ o, org w2 = (Ok o, w2)) as [o ->].
  { unfold org. destruct (negb (truthy (from_option VStr VNone org_id))); by eexists. }
  rewrite mbind_unfold.
  destruct (truthy (from_option VStr VNone o)).
  - erewrite setitem_live by (unfold w2; cbn [heap set_heap]; apply lookup_insert_eq).
    intros [= <- <-]. cbn [headers heap set_heap]. rewrite lookup_insert_eq.
    eexists. split; [done|]. split; [by simplify_map_eq|].
    rewrite lookup_insert_ne by done. eexists. apply lookup_insert_eq.
  - intros [= <- <-]. unfold w2. cbn [headers heap set_heap]. rewrite lookup_insert_eq.
    eexists. split; [done|]. split; [by simplify_map_eq|].
    eexists. apply lookup_insert_eq.
Qed.

Lemma silent_spec {A} (m : M A) (w : World) : silent m → (m w).2 = w.
Proof. intros H. apply H. Qed.

Lemma silent_ret {A} (a : A) : silent (mret a).
Proof. by intros w. Qed.

Lemma silent_raise {A} e : silent (raise (A := A) e).
Proof. by intros w. Qed.

Lemma silent_lift {A} (r : Res A) : silent (lift r).
Proof. by intros w. Qed.

Lemma silent_response_json response : silent (response_json response).
Proof. intros w. unfold codegpt.response_json. by destruct (json_loads _). Qed.

Lemma silent_bind {A B} (m : M A) (f : A → M B) :
  silent m → (∀ a, silent (f a)) → silent (m ≫= f).
Proof.
  intros Hm Hf w. rewrite mbind_unfold. specialize (Hm w).
  destruct (m w) as [[a|e] w1]; cbn [snd] in *; subst; [apply Hf|done].
Qed.

Ltac silent_step :=
  match goal with
  | |- silent (_ ≫= _) => apply silent_bind; [|intros ?]
  | |- silent (if ?b then _ else _) => destruct b
  | |- silent _ =>
      first [apply silent_ret | apply silent_raise | apply silent_lift
            | apply silent_response_json]
  end.

(** The request of [chat_completion] and of [upload_document] carries
    headers that differ from the client's: the copy with [media_type]
    added, and the copy without [Content-Type]. *)
Lemma chat_completion_request_headers self agent_id messages stream format w h req :
  heap w !! headers self = Some h →
  req ∈ requests_of (added w (chat_completion self agent_id messages stream format w).2) →
  req_headers req = <["media_type" := "text/event-stream"]> h.
Proof.
  intros Hh Hreq.
  destruct (chat_completion_requests self agent_id messages stream format w)
    as [Hnone|(h' & Hh' & _ & _ & _ & Hone)].
  - rewrite Hnone in Hreq. by apply elem_of_nil in Hreq.
  - rewrite Hone in Hreq. apply list_elem_of_singleton in Hreq as ->.
    by simplify_eq.
Qed.

Lemma upload_document_request_headers self file_path w h req :
  heap w !! headers self = Some h →
  req ∈ requests_of (added w (upload_document self file_path w).2) →
  req_headers req = delete "Content-Type" h.
Proof.
  intros Hh. unfold codegpt.upload_document. rewrite mbind_unfold. unfold os_path_exists.
  assert (added w w = []) as Hnil by (apply added_app; by rewrite app_nil_r).
  case_bool_decide as Hexists; cbn [negb].
  2:{ unfold raise. cbn [snd]. rewrite Hnil. intros Hreq. by apply elem_of_nil in Hreq. }
  rewrite mbind_unfold, (dict_copy_live _ _ _ Hh), mbind_unfold.
  set (l := fresh (dom (heap w))). set (w1 := set_heap _ w).
  assert (heap w1 !! l = Some h) as Hl by apply lookup_insert_eq.
  assert (added w w1 = []) as Hnil1 by (apply added_app; by rewrite app_nil_r).
  unfold delitem. rewrite Hl.
  destruct (h !! "Content-Type") as [ct|].
  2:{ cbn [snd]. rewrite Hnil1. intros Hreq. by apply elem_of_nil in Hreq. }
  set (w2 := set_heap _ w1).
  assert (added w w2 = []) as Hnil2 by (apply added_app; by rewrite app_nil_r).
  rewrite mbind_unfold. unfold open_rb. cbn [files unopenable set_heap w2 w1].
  destruct (files w !! file_path) as [content|] eqn:Hfile.
  2:{ destruct (unopenable w !! file_path); cbn [snd]; fold w1; fold w2;
        rewrite Hnil2; intros Hreq; by apply elem_of_nil in Hreq. }
  rewrite mbind_unfold.
  erewrite requests_live
    by (unfold w2, w1; cbn [heap set_heap]; rewrite insert_insert_eq; apply lookup_insert_eq).
  match goal with |- context [log (Http ?r) w2] => set (req' := r) end.
  assert (added w (log (Http req') w2) = [Http req']) as Hone by by apply added_app.
  assert (req ∈ requests_of [Http req'] → req_headers req = delete "Content-Type" h) as Hgoal.
  { intros Hreq. by apply list_elem_of_singleton in Hreq as ->. }
  match goal with
  | |- context [(?m (log (Http req') w2)).2] =>
      assert ((m (log (Http req') w2)).2 = log (Http req') w2) as ->
        by (apply silent_spec; repeat silent_step)
  end.
  by rewrite Hone.
Qed.

(** C10. On a constructed client, after any sequence of calls of its
    methods the dictionary [self.headers] is the one the constructor
    left: the other methods only read it, and [chat_completion] and
    [upload_document] change a copy, which is what their request carries
    (with [media_type] added, without [Content-Type]). *)
Theorem headers_never_mutated api_key org_id w0 self w cs :
  __init__ api_key org_id w0 = (Ok self, w) →
  ∃ h, heap w !! headers self = Some h
  ∧ heap (after_all self cs w) !! headers self = Some h
  ∧ (∀ agent_id messages stream format req,
       let w1 := after_all self cs w in
       req ∈ requests_of (added w1 (chat_completion self agent_id messages stream format w1).2) →
       req_headers req = <["media_type" := "text/event-stream"]> h
       ∧ heap (chat_completion self agent_id messages stream format w1).2 !! headers self
         = Some h)
  ∧ (∀ file_path req,
       let w1 := after_all self cs w in
       req ∈ requests_of (added w1 (upload_document self file_path w1).2) →
       req_headers req = delete "Content-Type" h
       ∧ heap (upload_document self file_path w1).2 !! headers self = Some h).
Proof.
  intros Hinit. destruct (init_headers _ _ _ _ _ Hinit) as (h & Hh & _).
  assert (heap (after_all self cs w) !! headers self = Some h) as Hafter
    by (by rewrite after_all_keeps).
  exists h. repeat split; try done.
  - by eapply chat_completion_request_headers.
  - by rewrite chat_completion_keeps.
  - by eapply upload_document_request_headers.
  - by rewrite upload_document_keeps.
Qed.

(** ** The methods, run on a live client *)

Local Abbreviation parsed := (codegpt.parsed json_loads).
Local Abbreviation perform :=
  (codegpt.perform json_dumps json_loads server Generator handle_stream handle_non_stream
     Agent Document guess_type basename).

Lemma requests_of_app (t1 t2 : list event) :
  requests_of (t1 ++ t2) = (requests_of t1 ++ requests_of t2)%list.
Proof. apply omap_app. Qed.

Lemma added_refl (w : World) : added w w = [].
Proof. apply added_app. by rewrite app_nil_r. Qed.

Lemma added_log (w : World) (e : event) : added w (log e w) = [e].
Proof. by apply added_app. Qed.

Lemma added_log_log (w : World) (e1 e2 : event) : added w (log e2 (log e1 w)) = [e1; e2].
Proof. apply added_app. cbn [log trace]. by rewrite <- app_assoc. Qed.

(** The part of a method after its request: parse the answer and build
    the result, without another effect. *)
Ltac run_request Hh :=
  unfold plain; rewrite mbind_unfold; erewrite requests_live by exact Hh;
  destruct (decide (status_code _ ≠ 200%Z)); [done|].

Lemma get_agents_run self h w :
  heap w !! headers self = Some h →
  let req := plain GET (base_url ++ "/agent") h None in
  let response := server (trace w) req in
  get_agents self w =
    (if decide (status_code response ≠ 200%Z) then Raise (Exception (api_response_was response))
     else match json_loads (text response) with
          | None => Raise (JSONDecodeError (text response))
          | Some agent_lists =>
              match py_iter agent_lists with
              | Raise e => Raise e
              | Ok agent_dicts =>
                  match comprehension Agent agent_dicts with
                  | Raise e => Raise e
                  | Ok agents => Ok (VList agents)
                  end
              end
          end, log (Http req) w).
Proof.
  intros Hh req response. subst req response. unfold codegpt.get_agents. run_request Hh.
  rewrite mbind_unfold. unfold codegpt.response_json.
  destruct (json_loads (text _)) as [v|]; [|done].
  unfold mret at 1, M_ret at 1. rewrite mbind_unfold. unfold lift at 1.
  destruct (py_iter v) as [ds|]; [|done].
  rewrite mbind_unfold. unfold lift.
  by destruct (comprehension Agent ds).
Qed.

Lemma get_documents_run self h w :
  heap w !! headers self = Some h →
  let req := plain GET (base_url ++ "/document") h None in
  let response := server (trace w) req in
  get_documents self w =
    (if decide (status_code response ≠ 200%Z) then Raise (Exception (api_response_was response))
     else match json_loads (text response) with
          | None => Raise (JSONDecodeError (text response))
          | Some document_lists =>
              match py_iter document_lists with
              | Raise e => Raise e
              | Ok document_dicts =>
                  match comprehension Document document_dicts with
                  | Raise e => Raise e
                  | Ok documents => Ok (VList documents)
                  end
              end
          end, log (Http req) w).
Proof.
  intros Hh req response. subst req response. unfold codegpt.get_documents. run_request Hh.
  rewrite mbind_unfold. unfold codegpt.response_json.
  destruct (json_loads (text _)) as [v|]; [|done].
  unfold mret at 1, M_ret at 1. rewrite mbind_unfold. unfold lift at 1.
  destruct (py_iter v) as [ds|]; [|done].
  rewrite mbind_unfold. unfold lift.
  by destruct (comprehension Document ds).
Qed.

Lemma parse_run (make : value → Res value) (response : Response) (w : World) :
  (response_json response ≫= λ d, lift (make d)) w = (parsed make response, w).
Proof.
  rewrite mbind_unfold. unfold codegpt.response_json, codegpt.parsed.
  by destruct (json_loads (text response)).
Qed.

Lemma get_agent_run self agent_id h w :
  heap w !! headers self = Some h →
  let req := plain GET (base_url ++ "/agent/" ++ agent_id ++ "?populate=agent_documents")
               h None in
  let response := server (trace w) req in
  get_agent self agent_id w =
    (if decide (status_code response ≠ 200%Z) then Raise (Exception (api_response_was response))
     else parsed Agent response, log (Http req) w).
Proof.
  intros Hh req response. subst req response. unfold codegpt.get_agent. run_request Hh.
  apply parse_run.
Qed.

Lemma get_document_run self document_id h w :
  heap w !! headers self = Some h →
  let req := plain GET (base_url ++ "/document/" ++ document_id) h None in
  let response := server (trace w) req in
  get_document self document_id w =
    (if decide (status_code response ≠ 200%Z) then Raise (Exception (api_response_was response))
     else parsed Document response, log (Http req) w).
Proof.
  intros Hh req response. subst req response. unfold codegpt.get_document. run_request Hh.
  apply parse_run.
Qed.

Lemma create_agent_run self name model prompt welcome topk temperature h w :
  heap w !! headers self = Some h →
  let req := plain POST (base_url ++ "/agent") h
               (Some (json_dumps (VDict [("name", name); ("model", model);
                                         ("prompt", prompt); ("welcome", welcome);
                                         ("topk", topk); ("temperature", temperature)]))) in
  let response := server (trace w) req in
  create_agent self name model prompt welcome topk temperature w =
    (if decide (status_code response ≠ 200%Z) then Raise (Exception (api_response_was response))
     else parsed Agent response, log (Http req) w).
Proof.
  intros Hh req response. subst req response. unfold codegpt.create_agent. cbv zeta.
  run_request Hh.
  apply parse_run.
Qed.

Lemma update_agent_run self agent_id name model prompt welcome topk temperature
    is_public pincode h w :
  heap w !! headers self = Some h → agent_id ≠ "" →
  update_payload name model prompt welcome topk temperature is_public pincode ≠ [] →
  let req := plain PATCH (base_url ++ "/agent/" ++ agent_id) h
               (Some (json_dumps (VDict (update_payload name model prompt welcome topk
                                           temperature is_public pincode)))) in
  let response := server (trace w) req in
  update_agent self agent_id name model prompt welcome topk temperature is_public pincode w =
    (if decide (status_code response ≠ 200%Z) then Raise (Exception (api_response_was response))
     else parsed Agent response, log (Http req) w).
Proof.
  intros Hh Ha Hp req response. subst req response. unfold codegpt.update_agent.
  rewrite truthy_VStr, bool_decide_true by done. cbn [negb]. cbv zeta.
  assert (truthy (VDict (update_payload name model prompt welcome topk temperature
                           is_public pincode)) = true) as ->.
  { cbn [truthy]. by rewrite bool_decide_false. }
  cbn [negb]. run_request Hh. apply parse_run.
Qed.

Lemma delete_agent_run self agent_id h w :
  heap w !! headers self = Some h →
  let req := plain DELETE (base_url ++ "/agent/" ++ agent_id) h None in
  let response := server (trace w) req in
  delete_agent self agent_id w =
    if decide (status_code response ≠ 200%Z)
    then (Raise (Exception (api_response_was response)), log (Http req) w)
    else (Ok VNone, log (Printed "Agent deleted successfully") (log (Http req) w)).
Proof.
  intros Hh req response. subst req response. unfold codegpt.delete_agent, plain.
  rewrite mbind_unfold. erewrite requests_live by exact Hh.
  by destruct (decide (status_code _ ≠ 200%Z)).
Qed.

Lemma delete_document_run self document_id h w :
  heap w !! headers self = Some h →
  let req := plain DELETE (base_url ++ "/document/" ++ document_id) h None in
  let response := server (trace w) req in
  delete_document self document_id w =
    if decide (status_code response ≠ 200%Z)
    then (Raise (Exception (api_response_was response)), log (Http req) w)
    else (Ok VNone, log (Printed "Document deleted successfully") (log (Http req) w)).
Proof.
  intros Hh req response. subst req response. unfold codegpt.delete_document, plain.
  rewrite mbind_unfold. erewrite requests_live by exact Hh.
  by destruct (decide (status_code _ ≠ 200%Z)).
Qed.

(** ** One request at most *)

Lemma quiet_same {A} (m : M A) : (∀ w, trace (m w).2 = trace w) → quiet m.
Proof. intros H w. exists []. by rewrite app_nil_r. Qed.

Lemma quiet_ret {A} (a : A) : quiet (mret a).
Proof. by apply quiet_same. Qed.

Lemma quiet_raise {A} e : quiet (raise (A := A) e).
Proof. by apply quiet_same. Qed.

Lemma quiet_lift {A} (r : Res A) : quiet (lift r).
Proof. by apply quiet_same. Qed.

Lemma quiet_getenv k : quiet (getenv k).
Proof. by apply quiet_same. Qed.

Lemma quiet_os_path_exists path : quiet (os_path_exists path).
Proof. by apply quiet_same. Qed.

Lemma quiet_open_rb path : quiet (open_rb path).
Proof. apply quiet_same. intros w. unfold open_rb. by destruct (files w !! path), (unopenable w !! path). Qed.

Lemma quiet_new_dict d : quiet (new_dict d).
Proof. by apply quiet_same. Qed.

Lemma quiet_dict_copy l : quiet (dict_copy l).
Proof.
  apply quiet_same. intros w. unfold dict_copy. rewrite mbind_unfold. unfold deref.
  by destruct (heap w !! l).
Qed.

Lemma quiet_setitem l k v : quiet (setitem l k v).
Proof. apply quiet_same. intros w. unfold setitem. by destruct (heap w !! l). Qed.

Lemma quiet_delitem l k : quiet (delitem l k).
Proof.
  apply quiet_same. intros w. unfold delitem. destruct (heap w !! l) as [d|]; [|done].
  by destruct (d !! k).
Qed.

Lemma quiet_response_json response : quiet (response_json response).
Proof.
  apply quiet_same. intros w. unfold codegpt.response_json. by destruct (json_loads _).
Qed.

(** A call of a decoder and a line of output are no requests. *)
Lemma quiet_emit e : requests_of [e] = [] → quiet (emit e).
Proof. intros He w. by exists [e]. Qed.

Lemma quiet_bind {A B} (m : M A) (f : A → M B) :
  quiet m → (∀ a, quiet (f a)) → quiet (m ≫= f).
Proof.
  intros Hm Hf w. rewrite mbind_unfold. destruct (Hm w) as (evs & Htr & Hevs).
  destruct (m w) as [[a|e] w1]; cbn [snd] in *; [|by exists evs].
  destruct (Hf a w1) as (evs' & Htr' & Hevs').
  exists (evs ++ evs')%list. rewrite Htr', Htr, <- app_assoc. split; [done|].
  by rewrite requests_of_app, Hevs, Hevs'.
Qed.

Lemma frugal_quiet {A} (m : M A) : quiet m → frugal m.
Proof.
  intros Hm w. destruct (Hm w) as (evs & Htr & Hevs). exists evs. rewrite Hevs.
  split; [done|]. cbn. lia.
Qed.

Lemma frugal_requests method url hdrs data stream upload :
  frugal (requests method url hdrs data stream upload).
Proof.
  intros w. destruct (heap w !! hdrs) as [d|] eqn:Hd.
  - erewrite requests_live by done. eexists [_]. split; [done|]. cbn. lia.
  - rewrite requests_dangling by done. exists []. rewrite app_nil_r. split; [done|]. cbn. lia.
Qed.

(** The request may come first or last, with no other around it. *)
Lemma frugal_bind_after {A B} (m : M A) (f : A → M B) :
  quiet m → (∀ a, frugal (f a)) → frugal (m ≫= f).
Proof.
  intros Hm Hf w. rewrite mbind_unfold. destruct (Hm w) as (evs & Htr & Hevs).
  destruct (m w) as [[a|e] w1]; cbn [snd] in *.
  - destruct (Hf a w1) as (evs' & Htr' & Hevs').
    exists (evs ++ evs')%list. rewrite Htr', Htr, <- app_assoc. split; [done|].
    by rewrite requests_of_app, Hevs.
  - exists evs. rewrite Hevs. split; [done|]. cbn. lia.
Qed.

Lemma frugal_bind_before {A B} (m : M A) (f : A → M B) :
  frugal m → (∀ a, quiet (f a)) → frugal (m ≫= f).
Proof.
  intros Hm Hf w. rewrite mbind_unfold. destruct (Hm w) as (evs & Htr & Hevs).
  destruct (m w) as [[a|e] w1]; cbn [snd] in *; [|by exists evs].
  destruct (Hf a w1) as (evs' & Htr' & Hevs').
  exists (evs ++ evs')%list. rewrite Htr', Htr, <- app_assoc. split; [done|].
  by rewrite requests_of_app, Hevs', app_nil_r.
Qed.

Ltac quiet_step :=
  match goal with
  | |- quiet (_ ≫= _) => apply quiet_bind; [|intros ?]
  | |- quiet (if ?b then _ else _) => destruct b
  | |- quiet (match ?x with _ => _ end) => destruct x
  | |- quiet (emit _) => apply quiet_emit; reflexivity
  | |- quiet _ =>
      first [ apply quiet_ret | apply quiet_raise | apply quiet_lift | apply quiet_getenv
            | apply quiet_os_path_exists | apply quiet_open_rb | apply quiet_new_dict
            | apply quiet_dict_copy | apply quiet_setitem | apply quiet_delitem
            | apply quiet_response_json ]
  end.

Ltac frugal_step :=
  match goal with
  | |- frugal (codegpt.requests _ _ _ _ _ _ _ ≫= _) =>
      apply frugal_bind_before; [apply frugal_requests | intros ?; repeat quiet_step]
  | |- frugal (_ ≫= _) => apply frugal_bind_after; [solve [repeat quiet_step] | intros ?]
  | |- frugal (if ?b then _ else _) => destruct b
  | |- frugal (match ?x with _ => _ end) => destruct x
  | |- frugal _ => apply frugal_quiet; solve [repeat quiet_step]
  end.

Lemma frugal_added {A} (m : M A) (w : World) :
  frugal m → (length (requests_of (added w (m w).2)) ≤ 1)%nat.
Proof. intros Hm. destruct (Hm w) as (evs & Htr & Hevs). by rewrite (added_app _ _ _ Htr). Qed.

(** X4. Whatever the call and whatever the world, a method makes one
    request at most: there is no second attempt and no follow-up
    request. *)
Theorem one_request_at_most self c w :
  (length (requests_of (added w (after self c w))) ≤ 1)%nat.
Proof.
  destruct c; cbn [codegpt.after]; apply frugal_added.
  - unfold codegpt.chat_completion. repeat frugal_step.
  - unfold codegpt.get_agents. repeat frugal_step.
  - unfold codegpt.get_agent. repeat frugal_step.
  - unfold codegpt.create_agent. repeat frugal_step.
  - unfold codegpt.update_agent. repeat frugal_step.
  - unfold codegpt.delete_agent. repeat frugal_step.
  - unfold update_agent_documents. repeat frugal_step.
  - unfold codegpt.get_documents. repeat frugal_step.
  - unfold codegpt.get_document. repeat frugal_step.
  - unfold update_document_metadata. repeat frugal_step.
  - unfold codegpt.upload_document. repeat frugal_step.
  - unfold codegpt.delete_document. repeat frugal_step.
Qed.

(** ** No object is shared *)

Lemma spares_keeps {A} l (m : M A) : keeps l m → spares l m.
Proof. intros H w _. apply H. Qed.

Lemma spares_bind {A B} l (m : M A) (f : A → M B) :
  spares l m → (∀ a, spares l (f a)) → spares l (m ≫= f).
Proof.
  intros Hm Hf w Hl. rewrite mbind_unfold. specialize (Hm w Hl).
  destruct (m w) as [[a|e] w1]; cbn [snd] in *; [|done].
  rewrite Hf by (by rewrite Hm). done.
Qed.

(** A new object is none of those that exist. *)
Lemma spares_bind_new {B} l d (f : nat → M B) :
  (∀ l', l' ≠ l → spares l (f l')) → spares l (new_dict d ≫= f).
Proof.
  intros Hf w Hl. rewrite mbind_unfold. unfold new_dict.
  assert (fresh (dom (heap w)) ≠ l) as Hne by (by apply fresh_heap_ne).
  rewrite Hf; cbn [heap set_heap]; rewrite ?lookup_insert_ne; done.
Qed.

Lemma spares_bind_copy {B} l l0 (f : nat → M B) :
  (∀ l', l' ≠ l → spares l (f l')) → spares l (dict_copy l0 ≫= f).
Proof.
  intros Hf w Hl. rewrite mbind_unfold.
  destruct (heap w !! l0) as [d|] eqn:Hd.
  - rewrite (dict_copy_live _ _ _ Hd).
    assert (fresh (dom (heap w)) ≠ l) as Hne by (by apply fresh_heap_ne).
    rewrite Hf; cbn [heap set_heap]; rewrite ?lookup_insert_ne; done.
  - by rewrite dict_copy_dangling.
Qed.

Ltac spares_step :=
  match goal with
  | |- spares _ (dict_copy _ ≫= _) => apply spares_bind_copy; intros ? ?
  | |- spares _ (new_dict _ ≫= _) => apply spares_bind_new; intros ? ?
  | |- spares _ (_ ≫= _) => apply spares_bind; [|intros ?]
  | |- spares _ (if ?b then _ else _) => destruct b
  | |- spares _ (match ?x with _ => _ end) => destruct x
  | |- spares _ _ => apply spares_keeps; solve [auto with keeps]
  end.

Lemma after_spares self c l w :
  is_Some (heap w !! l) → heap (after self c w) !! l = heap w !! l.
Proof.
  revert w. destruct c; cbn [codegpt.after].
  - change (spares l (chat_completion self agent_id messages stream format)).
    unfold codegpt.chat_completion. repeat spares_step.
  - change (spares l (get_agents self)).
    unfold codegpt.get_agents. repeat spares_step.
  - change (spares l (get_agent self agent_id)).
    unfold codegpt.get_agent. repeat spares_step.
  - change (spares l (create_agent self name model prompt welcome topk temperature)).
    unfold codegpt.create_agent. repeat spares_step.
  - change (spares l (update_agent self agent_id name model prompt welcome topk temperature
                        is_public pincode)).
    unfold codegpt.update_agent. repeat spares_step.
  - change (spares l (delete_agent self agent_id)).
    unfold codegpt.delete_agent. repeat spares_step.
  - done.
  - change (spares l (get_documents self)).
    unfold codegpt.get_documents. repeat spares_step.
  - change (spares l (get_document self document_id)).
    unfold codegpt.get_document. repeat spares_step.
  - done.
  - change (spares l (upload_document self file_path)).
    unfold codegpt.upload_document. repeat spares_step.
  - change (spares l (delete_document self document_id)).
    unfold codegpt.delete_document. repeat spares_step.
Qed.

Lemma init_spares api_key org_id l : spares l (__init__ api_key org_id).
Proof. unfold codegpt.__init__. repeat spares_step. Qed.

(** The constructor, run: the key is the argument or else the variable
    of the environment, and so is the organization. *)
Lemma init_run api_key org_id w0 :
  let key := or_else api_key (environ w0 !! "CODEGPT_API_KEY") in
  let org := or_else org_id (environ w0 !! "CODEGPT_ORG_ID") in
  let l := fresh (dom (heap w0)) in
  __init__ api_key org_id w0 =
    if truthy (from_option VStr VNone key) then
      (Ok {| headers := l; is_streaming := false |},
       set_heap (<[l := initial_headers (default "" key) org]> (heap w0)) w0)
    else (Raise (Exception key_not_found), w0).
Proof.
  intros key org l. subst key org. unfold codegpt.__init__, or_else.
  rewrite mbind_unfold.
  destruct (truthy (from_option VStr VNone api_key)) eqn:Ha; cbn [negb].
  - unfold mret at 1, M_ret at 1. rewrite Ha.
    rewrite mbind_unfold. unfold new_dict at 1. rewrite mbind_unfold. fold l.
    unfold initial_headers.
    destruct (truthy (from_option VStr VNone org_id)) eqn:Ho; cbn [negb].
    + unfold mret at 1, M_ret at 1. rewrite Ho, mbind_unfold.
      erewrite setitem_live by (cbn [heap set_heap]; apply lookup_insert_eq).
      cbn [heap set_heap]. by rewrite insert_insert_eq.
    + unfold getenv. cbn [environ set_heap].
      destruct (truthy (from_option VStr VNone (environ w0 !! "CODEGPT_ORG_ID"))) eqn:He.
      * rewrite mbind_unfold.
        erewrite setitem_live by (cbn [heap set_heap]; apply lookup_insert_eq).
        cbn [heap set_heap]. by rewrite insert_insert_eq.
      * by rewrite mbind_unfold.
  - rewrite mbind_unfold. unfold getenv.
    destruct (truthy (from_option VStr VNone (environ w0 !! "CODEGPT_API_KEY"))) eqn:He;
      cbn [negb]; [|done].
    unfold mret at 1, M_ret at 1.
    rewrite mbind_unfold. unfold new_dict at 1. rewrite mbind_unfold. fold l.
    unfold initial_headers.
    destruct (truthy (from_option VStr VNone org_id)) eqn:Ho; cbn [negb].
    + unfold mret at 1, M_ret at 1. rewrite Ho, mbind_unfold.
      erewrite setitem_live by (cbn [heap set_heap]; apply lookup_insert_eq).
      cbn [heap set_heap]. by rewrite insert_insert_eq.
    + cbn [environ set_heap].
      destruct (truthy (from_option VStr VNone (environ w0 !! "CODEGPT_ORG_ID"))) eqn:He'.
      * rewrite mbind_unfold.
        erewrite setitem_live by (cbn [heap set_heap]; apply lookup_insert_eq).
        cbn [heap set_heap]. by rewrite insert_insert_eq.
      * by rewrite mbind_unfold.
Qed.

(** X3. A call on a client, and the construction of a client, leave
    every dictionary that exists as it is: the headers of another client
    are never changed, and a new client gets headers of its own, so two
    clients share no state. *)
Theorem clients_share_nothing self c api_key org_id w l :
  is_Some (heap w !! l) →
  heap (after self c w) !! l = heap w !! l
  ∧ heap (__init__ api_key org_id w).2 !! l = heap w !! l
  ∧ ∀ other, (__init__ api_key org_id w).1 = Ok other → headers other ≠ l.
Proof.
  intros Hl. split; [by apply after_spares|]. split; [by apply init_spares|].
  intros other. rewrite init_run. cbv zeta.
  destruct (truthy _); [|done]. intros [= <-]. cbn [headers]. by apply fresh_heap_ne.
Qed.

(** X1. Without a key in the arguments and without one in the
    environment (absent or empty, in both places), the constructor raises
    the exception that names [CODEGPT_API_KEY], and no object has been
    made. *)
Theorem init_without_key api_key org_id w0 :
  api_key ∈ [None; Some ""] → environ w0 !! "CODEGPT_API_KEY" ∈ [None; Some ""] →
  __init__ api_key org_id w0 =
    (Raise (Exception ("JUDINI: API key not found. Please set the CODEGPT_API_KEY"
                       ++ " environment variable or pass it as an argument.")), w0).
Proof.
  intros Ha He. rewrite init_run. cbv zeta. unfold or_else.
  assert (∀ o : option string, o ∈ [None; Some ""] →
            truthy (from_option VStr VNone o) = false) as Hfalsy.
  { intros o Ho. repeat (apply elem_of_cons in Ho as [->|Ho]; [done|]).
    by apply elem_of_nil in Ho. }
  rewrite (Hfalsy _ Ha), (Hfalsy _ He). done.
Qed.

(** X2. With a key, the constructor makes a client whose headers are a
    new dictionary with the content type, the bearer authorization of the
    key and, when an organization is given, its entry.  A key or an
    organization passed as an argument wins over the environment; an
    organization that is absent or empty in both places leaves no entry. *)
Theorem init_headers_exact api_key org_id w0 key :
  or_else api_key (environ w0 !! "CODEGPT_API_KEY") = Some key → key ≠ "" →
  let org := or_else org_id (environ w0 !! "CODEGPT_ORG_ID") in
  let l := fresh (dom (heap w0)) in
  let h := <["Authorization" := "Bearer " ++ key]>
             (<["Content-Type" := "application/json"]> ∅) in
  heap w0 !! l = None
  ∧ __init__ api_key org_id w0 =
      (Ok {| headers := l; is_streaming := false |},
       set_heap (<[l := match org with
                        | Some o => if decide (o = "") then h else <["CodeGPT-Org-Id" := o]> h
                        | None => h
                        end]> (heap w0)) w0).
Proof.
  intros Hkey Hne org l h. split; [apply fresh_heap_None|].
  rewrite init_run. cbv zeta. rewrite Hkey. cbn [from_option default].
  rewrite truthy_VStr, bool_decide_true by done.
  unfold initial_headers. fold org. cbv zeta. fold h.
  destruct org as [o|]; cbn [from_option default]; [|done].
  rewrite truthy_VStr. destruct (decide (o = "")) as [->|Ho].
  - by rewrite bool_decide_false by (by intros ?).
  - by rewrite bool_decide_true.
Qed.

(** ** Every call, on a live client *)

Local Abbreviation upload_request := (codegpt.upload_request guess_type basename).

Lemma perform_after self c w : (perform self c w).2 = after self c w.
Proof.
  destruct c; cbn [codegpt.perform codegpt.after]; try done;
    rewrite mbind_unfold;
    match goal with |- context [match ?m with _ => _ end] => by destruct m as [[v|e] w1] end.
Qed.

(** The result of a call that returns a value. *)
Lemma perform_value (m : M value) (w : World) :
  ((m ≫= λ v, mret (Value (G := Generator) v)) w).1
  = match (m w).1 with Ok v => Ok (Value v) | Raise e => Raise e end.
Proof. rewrite mbind_unfold. by destruct (m w) as [[v|e] w1]. Qed.

Lemma added_sent (w w' : World) (e : event) :
  trace w' = trace w → added w (log e w') = [e].
Proof. intros Htr. apply added_app. cbn [log trace]. by rewrite Htr. Qed.

Lemma added_sent_then (w w' : World) (e1 e2 : event) :
  trace w' = trace w → added w (log e2 (log e1 w')) = [e1; e2].
Proof. intros Htr. apply added_app. cbn [log trace]. by rewrite Htr, <- app_assoc. Qed.

Lemma added_same (w w' : World) : trace w' = trace w → added w w' = [].
Proof. intros Htr. apply added_app. by rewrite Htr, app_nil_r. Qed.

Lemma update_agent_rejects self agent_id name model prompt welcome topk temperature
    is_public pincode w :
  agent_id = ""
  ∨ update_payload name model prompt welcome topk temperature is_public pincode = [] →
  ∃ msg, update_agent self agent_id name model prompt welcome topk temperature
           is_public pincode w = (Raise (ValueError msg), w).
Proof.
  intros Hbad. unfold codegpt.update_agent. rewrite truthy_VStr.
  case_bool_decide as Ha; cbn [negb]; [|by eexists]. cbv zeta.
  destruct Hbad as [-> | ->]; [done|]. by eexists.
Qed.

(** [upload_document], run on a file that exists by a client whose headers
    have a content type. *)
Lemma upload_document_run self file_path content ct h w :
  heap w !! headers self = Some h → h !! "Content-Type" = Some ct →
  files w !! file_path = Some content →
  let req := upload_request h file_path content in
  let response := server (trace w) req in
  upload_document self file_path w =
    (if decide (status_code response ≠ 200%Z) then Raise (Exception (api_response_was response))
     else match json_loads (text response) with
          | None => Raise (JSONDecodeError (text response))
          | Some response_json =>
              match getitem "documentId" response_json with
              | Ok documentId => Ok (VDict [("id", documentId)])
              | Raise e => Raise e
              end
          end,
     log (Http req)
       (set_heap (<[fresh (dom (heap w)) := delete "Content-Type" h]> (heap w)) w)).
Proof.
  intros Hh Hct Hfile req response. subst req response.
  unfold codegpt.upload_document, codegpt.upload_request.
  rewrite mbind_unfold. unfold os_path_exists.
  rewrite bool_decide_true by (by left; eexists). cbn [negb]. cbv zeta.
  rewrite mbind_unfold, (dict_copy_live _ _ _ Hh), mbind_unfold.
  unfold delitem. cbn [heap set_heap]. rewrite lookup_insert_eq, Hct.
  cbn [heap set_heap]. rewrite insert_insert_eq.
  rewrite mbind_unfold. unfold open_rb. cbn [files set_heap]. rewrite Hfile.
  rewrite mbind_unfold.
  erewrite requests_live by (cbn [heap set_heap]; apply lookup_insert_eq).
  cbn [trace set_heap].
  destruct (decide (status_code _ ≠ 200%Z)); [done|].
  rewrite mbind_unfold. unfold codegpt.response_json.
  destruct (json_loads (text _)) as [v|]; [|done].
  unfold mret at 1, M_ret at 1. rewrite mbind_unfold. unfold lift.
  by destruct (getitem "documentId" v).
Qed.

(** [upload_document] stops before it sends when the path holds no file
    that can be read (it does not exist, or [open] refuses it) or the
    headers have no content type. *)
Lemma upload_document_stops self file_path h w :
  heap w !! headers self = Some h →
  files w !! file_path = None ∨ h !! "Content-Type" = None →
  trace (upload_document self file_path w).2 = trace w.
Proof.
  intros Hh Hbad. unfold codegpt.upload_document.
  rewrite mbind_unfold. unfold os_path_exists.
  case_bool_decide as Hexists; cbn [negb]; [|done]. cbv zeta.
  rewrite mbind_unfold, (dict_copy_live _ _ _ Hh), mbind_unfold.
  unfold delitem. cbn [heap set_heap]. rewrite lookup_insert_eq.
  destruct (h !! "Content-Type") as [ct|] eqn:Hct; [|done].
  destruct Hbad as [Hfile|]; [|done].
  rewrite mbind_unfold. unfold open_rb. cbn [files unopenable set_heap]. rewrite Hfile.
  by destruct (unopenable w !! file_path).
Qed.

(** What every call does on a live client: it sends nothing, or it sends
    one request, which carries the client's headers but for [media_type]
    and [Content-Type]; an answer that is not a 200 ends the call with the
    exception of its status and body, and a 200 whose body is not JSON
    ends a call that parses it with the error of [json]. *)
Lemma call_cases self c h w :
  heap w !! headers self = Some h →
  added w (after self c w) = [] ∨
  ∃ req tail,
    added w (after self c w) = Http req :: tail ∧ requests_of tail = []
    ∧ (∀ k, k ≠ "media_type" → k ≠ "Content-Type" → req_headers req !! k = h !! k)
    ∧ (status_code (server (trace w) req) ≠ 200%Z →
       tail = []
       ∧ (perform self c w).1 = Raise (Exception (api_response_was (server (trace w) req))))
    ∧ (status_code (server (trace w) req) = 200%Z →
       json_loads (text (server (trace w) req)) = None → parses_answer c = true →
       (perform self c w).1 = Raise (JSONDecodeError (text (server (trace w) req)))).
Proof.
  intros Hh.
  assert (∀ (m : M value) req r,
            m w = (if decide (status_code (server (trace w) req) ≠ 200%Z)
                   then Raise (Exception (api_response_was (server (trace w) req)))
                   else r, log (Http req) w) →
            req_headers req = h →
            (json_loads (text (server (trace w) req)) = None →
             r = Raise (JSONDecodeError (text (server (trace w) req)))) →
            ∃ req tail,
              added w (m w).2 = Http req :: tail ∧ requests_of tail = []
              ∧ (∀ k, k ≠ "media_type" → k ≠ "Content-Type" → req_headers req !! k = h !! k)
              ∧ (status_code (server (trace w) req) ≠ 200%Z →
                 tail = []
                 ∧ ((m ≫= λ v, mret (Value (G := Generator) v)) w).1
                   = Raise (Exception (api_response_was (server (trace w) req))))
              ∧ (status_code (server (trace w) req) = 200%Z →
                 json_loads (text (server (trace w) req)) = None → true = true →
                 ((m ≫= λ v, mret (Value (G := Generator) v)) w).1
                 = Raise (JSONDecodeError (text (server (trace w) req))))) as Hplain.
  { intros m req r Hm Hreq Hr. exists req, []. rewrite perform_value, Hm. cbn [fst snd].
    rewrite added_log, Hreq. repeat split; try done.
    - by rewrite decide_True.
    - intros Hst Hj _. rewrite decide_False by (by intros ?). by rewrite Hr. }
  destruct c; cbn [codegpt.after codegpt.perform codegpt.parses_answer].
  - (* chat_completion *)
    destruct (decide (messages = [])) as [Hm|Hm].
    { destruct (chat_completion_rejects self agent_id messages stream format w) as [? ->];
        [by left|]. left. apply added_refl. }
    destruct (decide (agent_id = "")) as [Ha|Ha].
    { destruct (chat_completion_rejects self agent_id messages stream format w) as [? ->];
        [by right; left|]. left. apply added_refl. }
    destruct (Format_of format) as [fmt|] eqn:Hf.
    2:{ destruct (chat_completion_rejects self agent_id messages stream format w) as [? ->];
        [by right; right; apply Format_of_None|]. left. apply added_refl. }
    right. rewrite (chat_completion_sends _ _ _ _ _ fmt h) by done. cbv zeta.
    unfold chat_sent. exists (chat_request h agent_id messages stream).
    destruct (decide (status_code _ ≠ 200%Z)) as [Hst|Hst]; [|destruct stream]; cbn [fst snd].
    + exists []. rewrite (added_sent w (set_heap _ w)) by done.
      repeat split; try done. intros k Hk _. cbn. by rewrite lookup_insert_ne.
    + eexists [_]. rewrite (added_sent_then w (set_heap _ w)) by done.
      repeat split; try done. intros k Hk _. cbn. by rewrite lookup_insert_ne.
    + eexists [_]. rewrite (added_sent_then w (set_heap _ w)) by done.
      repeat split; try done. intros k Hk _. cbn. by rewrite lookup_insert_ne.
  - right. eapply Hplain; [by apply get_agents_run|done|].
    by intros ->.
  - right. eapply Hplain; [by apply get_agent_run|done|].
    unfold codegpt.parsed. by intros ->.
  - right. eapply Hplain; [by apply create_agent_run|done|].
    unfold codegpt.parsed. by intros ->.
  - destruct (decide (agent_id = "")) as [Ha|Ha].
    { destruct (update_agent_rejects self agent_id name model prompt welcome topk temperature
                  is_public pincode w) as [? ->]; [by left|]. left. apply added_refl. }
    destruct (decide (update_payload name model prompt welcome topk temperature
                        is_public pincode = [])) as [Hp|Hp].
    { destruct (update_agent_rejects self agent_id name model prompt welcome topk temperature
                  is_public pincode w) as [? ->]; [by right|]. left. apply added_refl. }
    right. eapply Hplain; [by apply update_agent_run|done|].
    unfold codegpt.parsed. by intros ->.
  - right. rewrite perform_value, (delete_agent_run _ _ h) by done. cbv zeta.
    eexists. destruct (decide (status_code _ ≠ 200%Z)); cbn [fst snd].
    + exists []. rewrite added_log. by repeat split.
    + eexists [_]. rewrite added_log_log. by repeat split.
  - left. apply added_refl.
  - right. eapply Hplain; [by apply get_documents_run|done|].
    by intros ->.
  - right. eapply Hplain; [by apply get_document_run|done|].
    unfold codegpt.parsed. by intros ->.
  - left. apply added_refl.
  - destruct (files w !! file_path) as [content|] eqn:Hfile.
    2:{ left. apply added_same. apply (upload_document_stops _ _ h); auto. }
    destruct (h !! "Content-Type") as [ct|] eqn:Hct.
    2:{ left. apply added_same. apply (upload_document_stops _ _ h); auto. }
    right. rewrite perform_value, (upload_document_run _ _ content ct h) by done. cbv zeta.
    exists (upload_request h file_path content), []. cbn [fst snd].
    rewrite (added_sent w (set_heap _ w)) by done.
    repeat split; try done.
    + intros k _ Hk. cbn. by rewrite lookup_delete_ne.
    + by rewrite decide_True.
    + intros Hst Hj _. rewrite decide_False by (by intros ?). by rewrite Hj.
  - right. rewrite perform_value, (delete_document_run _ _ h) by done. cbv zeta.
    eexists. destruct (decide (status_code _ ≠ 200%Z)); cbn [fst snd].
    + exists []. rewrite added_log. by repeat split.
    + eexists [_]. rewrite added_log_log. by repeat split.
Qed.

(** X5. Every request of every method carries the entries of the
    client's headers, the authorization among them: but for [media_type]
    and [Content-Type], the headers of the request and of the client agree
    on every key. *)
Theorem requests_carry_client_headers self c h w req :
  heap w !! headers self = Some h →
  req ∈ requests_of (added w (after self c w)) →
  (∀ k, k ≠ "media_type" → k ≠ "Content-Type" → req_headers req !! k = h !! k)
  ∧ req_headers req !! "Authorization" = h !! "Authorization".
Proof.
  intros Hh Hreq.
  destruct (call_cases self c h w Hh) as [Hnone|(req' & tail & Hadd & Htail & Hk & _)].
  { rewrite Hnone in Hreq. by apply elem_of_nil in Hreq. }
  rewrite Hadd in Hreq. change (Http req' :: tail) with ([Http req'] ++ tail)%list in Hreq.
  rewrite requests_of_app, Htail in Hreq. apply list_elem_of_singleton in Hreq as ->.
  split; [done|]. by apply Hk.
Qed.

(** X6. Whatever the method, when the answer to its request is not a 200
    the call raises the exception whose text carries the status and the
    body, and the call does nothing more: nothing is parsed, decoded or
    printed. *)
Theorem non_200_raises self c h w req :
  heap w !! headers self = Some h →
  requests_of (added w (after self c w)) = [req] →
  let response := server (trace w) req in
  status_code response ≠ 200%Z →
  (perform self c w).1
  = Raise (Exception ("JUDINI: API Response was: " ++ pretty (status_code response) ++ " "
                      ++ text response ++ " " ++ JUDINI_TUTORIAL))
  ∧ added w (after self c w) = [Http req].
Proof.
  intros Hh Hreq response Hst. subst response.
  destruct (call_cases self c h w Hh) as [Hnone|(req' & tail & Hadd & Htail & _ & Hbad & _)].
  { by rewrite Hnone in Hreq. }
  rewrite Hadd in Hreq. change (Http req' :: tail) with ([Http req'] ++ tail)%list in Hreq.
  rewrite requests_of_app, Htail in Hreq. injection Hreq as ->.
  destruct (Hbad Hst) as [-> Hr]. by rewrite Hadd.
Qed.

(** X7. A 200 whose body is not JSON ends every method that parses the
    answer ([get_agents], [get_agent], [create_agent], [update_agent],
    [get_documents], [get_document], [upload_document]) with the error of
    [response.json()], not with the exception of the client. *)
Theorem unparsable_200_raises self c h w req :
  heap w !! headers self = Some h → parses_answer c = true →
  requests_of (added w (after self c w)) = [req] →
  let response := server (trace w) req in
  status_code response = 200%Z → json_loads (text response) = None →
  (perform self c w).1 = Raise (JSONDecodeError (text response)).
Proof.
  intros Hh Hp Hreq response Hst Hj. subst response.
  destruct (call_cases self c h w Hh) as [Hnone|(req' & tail & Hadd & Htail & _ & _ & Hjson)].
  { by rewrite Hnone in Hreq. }
  rewrite Hadd in Hreq. change (Http req' :: tail) with ([Http req'] ++ tail)%list in Hreq.
  rewrite requests_of_app, Htail in Hreq. injection Hreq as ->.
  by apply Hjson.
Qed.

(** ** Listings *)

Lemma comprehension_Ok (f : value → Res value) (l ys : list value) :
  comprehension f l = Ok ys ↔ Forall2 (λ x y, f x = Ok y) l ys.
Proof.
  revert ys. induction l as [|x l IH]; intros ys; cbn [comprehension].
  - split; [intros [= <-]; constructor | by intros ->%Forall2_nil_inv_l].
  - destruct (f x) as [y|e] eqn:Hx.
    + destruct (comprehension f l) as [ys'|e] eqn:Hl.
      * split.
        -- intros [= <-]. constructor; [done|]. by apply IH.
        -- intros (y' & ys'' & Hy & Hys & ->)%Forall2_cons_inv_l.
           apply IH in Hys. injection Hys as <-. rewrite Hx in Hy. by injection Hy as <-.
      * split; [done|].
        intros (y' & ys'' & Hy & Hys & ->)%Forall2_cons_inv_l. by apply IH in Hys.
    + split; [done|].
      intros (y' & ys'' & Hy & Hys & ->)%Forall2_cons_inv_l. congruence.
Qed.

Lemma comprehension_Raise (f : value → Res value) (l1 l2 : list value) x e :
  Forall (λ x, ∃ y, f x = Ok y) l1 → f x = Raise e →
  comprehension f (l1 ++ x :: l2) = Raise e.
Proof.
  intros Hl1 Hx. induction Hl1 as [|x1 l1 [y Hy] _ IH]; cbn [app comprehension].
  - by rewrite Hx.
  - by rewrite Hy, IH.
Qed.

(** X8. [get_agents] and [get_documents], on a 200 whose body is a JSON
    list, return the records of the elements in the order of the list, one
    for each; the first element that the constructor rejects ends the call
    with the constructor's exception. *)
Theorem listings_in_order self h w ds :
  heap w !! headers self = Some h →
  (let response := server (trace w) (plain GET (base_url ++ "/agent") h None) in
   status_code response = 200%Z → json_loads (text response) = Some (VList ds) →
   (∀ agents, Forall2 (λ d a, Agent d = Ok a) ds agents →
              (get_agents self w).1 = Ok (VList agents))
   ∧ (∀ ds1 d ds2 e, ds = (ds1 ++ d :: ds2)%list →
        Forall (λ x, ∃ a, Agent x = Ok a) ds1 → Agent d = Raise e →
        (get_agents self w).1 = Raise e))
  ∧ (let response := server (trace w) (plain GET (base_url ++ "/document") h None) in
     status_code response = 200%Z → json_loads (text response) = Some (VList ds) →
     (∀ documents, Forall2 (λ d a, Document d = Ok a) ds documents →
                   (get_documents self w).1 = Ok (VList documents))
     ∧ (∀ ds1 d ds2 e, ds = (ds1 ++ d :: ds2)%list →
          Forall (λ x, ∃ a, Document x = Ok a) ds1 → Document d = Raise e →
          (get_documents self w).1 = Raise e)).
Proof.
  intros Hh. split; intros response Hst Hj.
  - rewrite (get_agents_run _ h) by done. cbv zeta. fold response.
    rewrite decide_False by (by intros ?). rewrite Hj. cbn [fst py_iter]. split.
    + intros agents Hall. apply comprehension_Ok in Hall. by rewrite Hall.
    + intros ds1 d ds2 e -> Hds1 Hd. by rewrite (comprehension_Raise _ _ _ _ e).
  - rewrite (get_documents_run _ h) by done. cbv zeta. fold response.
    rewrite decide_False by (by intros ?). rewrite Hj. cbn [fst py_iter]. split.
    + intros documents Hall. apply comprehension_Ok in Hall. by rewrite Hall.
    + intros ds1 d ds2 e -> Hds1 Hd. by rewrite (comprehension_Raise _ _ _ _ e).
Qed.

(** ** Deleting *)

(** X14. [delete_agent] and [delete_document] print their line of success
    exactly when the answer is a 200, and then they return [None] without
    reading the body; otherwise they print nothing. *)
Theorem delete_prints_on_200 self id h w :
  heap w !! headers self = Some h →
  (let response := server (trace w) (plain DELETE (base_url ++ "/agent/" ++ id) h None) in
   (status_code response = 200%Z →
    (delete_agent self id w).1 = Ok VNone
    ∧ printed_of (added w (delete_agent self id w).2) = ["Agent deleted successfully"])
   ∧ (status_code response ≠ 200%Z →
      printed_of (added w (delete_agent self id w).2) = []))
  ∧ (let response := server (trace w) (plain DELETE (base_url ++ "/document/" ++ id) h None) in
     (status_code response = 200%Z →
      (delete_document self id w).1 = Ok VNone
      ∧ printed_of (added w (delete_document self id w).2)
        = ["Document deleted successfully"])
     ∧ (status_code response ≠ 200%Z →
        printed_of (added w (delete_document self id w).2) = [])).
Proof.
  intros Hh. split; intros response.
  - rewrite (delete_agent_run _ _ h) by done. cbv zeta. fold response. split; intros Hst.
    + rewrite decide_False by (by intros ?). cbn [fst snd]. by rewrite added_log_log.
    + rewrite decide_True by done. cbn [snd]. by rewrite added_log.
  - rewrite (delete_document_run _ _ h) by done. cbv zeta. fold response. split; intros Hst.
    + rewrite decide_False by (by intros ?). cbn [fst snd]. by rewrite added_log_log.
    + rewrite decide_True by done. cbn [snd]. by rewrite added_log.
Qed.

(** ** Uploading *)

(** X10. [upload_document] on a path where nothing exists, neither a file
    that can be read nor a path that [open] refuses, raises
    [FileNotFoundError] with the path in its text, before it copies the
    headers or sends anything: the world is the one before the call. *)
Theorem upload_document_missing_file self file_path w :
  files w !! file_path = None → unopenable w !! file_path = None →
  upload_document self file_path w
  = (Raise (FileNotFoundError ("JUDINI: File not found: " ++ file_path)), w).
Proof.
  intros Hfile Hun. unfold codegpt.upload_document. rewrite mbind_unfold.
  unfold os_path_exists.
  by rewrite Hfile, Hun, bool_decide_false by (by intros [[? ?]|[? ?]]).
Qed.

(** X15. [upload_document] on a path that exists and that [open] refuses (a
    directory, a file without read permission) passes the check of
    existence, copies the headers and deletes [Content-Type] from the copy,
    and then ends with the exception of [open] as it is: no request is
    sent, and the client's own headers are the ones before the call. *)
Theorem upload_document_unopenable self file_path e ct h w :
  heap w !! headers self = Some h → h !! "Content-Type" = Some ct →
  files w !! file_path = None → unopenable w !! file_path = Some e →
  upload_document self file_path w
  = (Raise e, set_heap (<[fresh (dom (heap w)) := delete "Content-Type" h]> (heap w)) w)
  ∧ added w (upload_document self file_path w).2 = []
  ∧ heap (upload_document self file_path w).2 !! headers self = Some h.
Proof.
  intros Hh Hct Hfile Hun.
  assert (upload_document self file_path w
          = (Raise e, set_heap (<[fresh (dom (heap w)) := delete "Content-Type" h]> (heap w)) w))
    as ->.
  { unfold codegpt.upload_document. rewrite mbind_unfold. unfold os_path_exists.
    rewrite bool_decide_true by (by right; eexists). cbn [negb]. cbv zeta.
    rewrite mbind_unfold, (dict_copy_live _ _ _ Hh), mbind_unfold.
    unfold delitem. cbn [heap set_heap]. rewrite lookup_insert_eq, Hct.
    cbn [heap set_heap]. rewrite insert_insert_eq.
    rewrite mbind_unfold. unfold open_rb. cbn [files unopenable set_heap].
    by rewrite Hfile, Hun. }
  split; [done|]. cbn [snd]. split; [by apply added_same|].
  cbn [heap set_heap]. rewrite lookup_insert_ne; [done|].
  apply fresh_heap_ne. by eexists.
Qed.

(** X9. [upload_document] of a file that exists sends one request, with
    the file under its base name and guessed type, no data and no
    [Content-Type]; on a 200 whose body is a JSON object it returns the
    dictionary with the [documentId] of the answer under [id], and raises
    [KeyError] when the answer has no [documentId]. *)
Theorem upload_document_result self file_path content ct h w :
  heap w !! headers self = Some h → h !! "Content-Type" = Some ct →
  files w !! file_path = Some content →
  let req := upload_request h file_path content in
  let response := server (trace w) req in
  requests_of (added w (upload_document self file_path w).2) = [req]
  ∧ req_headers req !! "Content-Type" = None
  ∧ (status_code response = 200%Z →
     ∀ d, json_loads (text response) = Some (VDict d) →
       (upload_document self file_path w).1
       = match dict_get "documentId" d with
         | Some documentId => Ok (VDict [("id", documentId)])
         | None => Raise (KeyError "documentId")
         end).
Proof.
  intros Hh Hct Hfile req response.
  rewrite (upload_document_run _ _ content ct h) by done. cbv zeta. fold req response.
  cbn [fst snd]. rewrite (added_sent w (set_heap _ w)) by done.
  split; [done|]. split; [apply lookup_delete_eq|].
  intros Hst d Hj. rewrite decide_False by (by intros ?). rewrite Hj. cbn [getitem].
  by destruct (dict_get "documentId" d).
Qed.

(** X11. On a constructed client, after any sequence of calls,
    [upload_document] of a file that exists gets as far as its request:
    the deletion of [Content-Type] from the copy of the headers finds the
    entry, and the request has the authorization and no content type. *)
Theorem upload_document_after_calls api_key org_id w0 self w cs file_path content :
  __init__ api_key org_id w0 = (Ok self, w) →
  files (after_all self cs w) !! file_path = Some content →
  ∃ h, heap w !! headers self = Some h
       ∧ requests_of (added (after_all self cs w)
                        (upload_document self file_path (after_all self cs w)).2)
         = [upload_request h file_path content]
       ∧ req_headers (upload_request h file_path content) !! "Content-Type" = None
       ∧ is_Some (req_headers (upload_request h file_path content) !! "Authorization").
Proof.
  intros Hinit Hfile. destruct (init_headers _ _ _ _ _ Hinit) as (h & Hh & Hct & Hauth).
  exists h. split; [done|].
  assert (heap (after_all self cs w) !! headers self = Some h) as Hafter
    by (by rewrite after_all_keeps).
  rewrite (upload_document_run _ _ content "application/json" h) by done. cbv zeta.
  cbn [snd]. rewrite (added_sent (after_all self cs w) (set_heap _ (after_all self cs w)))
    by done.
  split; [done|]. cbn [codegpt.upload_request req_headers].
  split; [apply lookup_delete_eq|]. by rewrite lookup_delete_ne.
Qed.

(** ** Updating an agent *)

Lemma update_payload_filter name model prompt welcome topk temperature is_public pincode :
  update_payload name model prompt welcome topk temperature is_public pincode
  = List.filter (λ kv, truthy kv.2)
      [("name", name); ("model", model); ("prompt", prompt); ("welcome", welcome);
       ("topk", topk); ("temperature", temperature); ("is_public", is_public);
       ("pincode", pincode)].
Proof.
  unfold codegpt.update_payload. cbn [List.filter snd].
  destruct (truthy name), (truthy model), (truthy prompt), (truthy welcome),
    (truthy topk), (truthy temperature), (truthy is_public), (truthy pincode);
    reflexivity.
Qed.

Lemma update_payload_nonempty name model prompt welcome topk temperature is_public pincode :
  Exists (λ v, truthy v = true)
    [name; model; prompt; welcome; topk; temperature; is_public; pincode] →
  update_payload name model prompt welcome topk temperature is_public pincode ≠ [].
Proof.
  intros Hex Hnil. rewrite update_payload_filter in Hnil. cbn [List.filter snd] in Hnil.
  destruct (truthy name) eqn:?, (truthy model) eqn:?, (truthy prompt) eqn:?,
    (truthy welcome) eqn:?, (truthy topk) eqn:?, (truthy temperature) eqn:?,
    (truthy is_public) eqn:?, (truthy pincode) eqn:?; try discriminate Hnil.
  repeat (apply Exists_cons in Hex as [Hex|Hex]; [congruence|]).
  by apply Exists_nil in Hex.
Qed.

(** X12. With an [agent_id] and at least one truthy optional parameter, on
    a live client, [update_agent] sends exactly one request and nothing
    else: a [PATCH] to the agent, whose data is the serialization of the
    dictionary of the truthy parameters alone, in the order of the
    signature. *)
Theorem update_agent_sends self agent_id name model prompt welcome topk temperature
    is_public pincode h w :
  heap w !! headers self = Some h → agent_id ≠ "" →
  Exists (λ v, truthy v = true)
    [name; model; prompt; welcome; topk; temperature; is_public; pincode] →
  added w (update_agent self agent_id name model prompt welcome topk temperature
             is_public pincode w).2
  = [Http (plain PATCH (base_url ++ "/agent/" ++ agent_id) h
             (Some (json_dumps (VDict (List.filter (λ kv, truthy kv.2)
                [("name", name); ("model", model); ("prompt", prompt);
                 ("welcome", welcome); ("topk", topk); ("temperature", temperature);
                 ("is_public", is_public); ("pincode", pincode)])))))].
Proof.
  intros Hh Ha Hex.
  rewrite (update_agent_run _ _ _ _ _ _ _ _ _ _ h) by (by try apply update_payload_nonempty).
  cbv zeta. cbn [snd]. by rewrite added_log, update_payload_filter.
Qed.

(** ** The order of the checks *)

(** X13. The checks of [chat_completion] run in the order messages,
    [agent_id], [format], and the first that fails gives the text of the
    [ValueError]; [update_agent] checks [agent_id] before it looks at any
    other parameter.  In each case the world is the one before the call. *)
Theorem validation_order self agent_id messages stream format
    name model prompt welcome topk temperature is_public pincode w :
  (messages = [] →
   chat_completion self agent_id messages stream format w
   = (Raise (ValueError "JUDINI: messages array should not be empty"), w))
  ∧ (messages ≠ [] → agent_id = "" →
     chat_completion self agent_id messages stream format w
     = (Raise (ValueError "JUDINI: agent_id should not be empty"), w))
  ∧ (messages ≠ [] → agent_id ≠ "" → format ∉ ["json"; "text"] →
     chat_completion self agent_id messages stream format w
     = (Raise (ValueError ("JUDINI: format should be either " ++ dquote ++ "json"
                           ++ dquote ++ " or " ++ dquote ++ "text" ++ dquote)), w))
  ∧ (agent_id = "" →
     update_agent self agent_id name model prompt welcome topk temperature is_public pincode w
     = (Raise (ValueError "JUDINI: agent_id should not be empty"), w)).
Proof.
  split; [|split; [|split]].
  - intros ->. done.
  - intros Hm ->. unfold codegpt.chat_completion.
    by rewrite decide_False by (by destruct messages).
  - intros Hm Ha Hf%Format_of_None. unfold codegpt.chat_completion.
    rewrite decide_False by (by destruct messages).
    rewrite truthy_VStr, bool_decide_true by done. cbn [negb]. by rewrite Hf.
  - intros ->. done.
Qed.

End ClientFacts.

(** * Facts about the decoders *)

Section DecoderFacts.
Import utils.
Variable json_loads : string → option value.
Variable error_field : string.

Local Abbreviation decode_frame := (utils.decode_frame json_loads error_field).
Local Abbreviation await := (utils.await json_loads error_field).
Local Abbreviation next := (utils.next json_loads error_field).
Local Abbreviation iterate := (utils.iterate json_loads error_field).
Local Abbreviation consume := (utils.consume json_loads error_field).
Local Abbreviation frames := (utils.frames json_loads error_field).
Local Abbreviation aggregate_text := (utils.aggregate_text json_loads error_field).
Local Abbreviation is_content := (utils.is_content json_loads error_field).
Local Abbreviation is_error := (utils.is_error json_loads error_field).
Local Abbreviation is_malformed := (utils.is_malformed json_loads error_field).

Lemma data_of_data_line (payload : string) : data_of ("data: " ++ payload) = Some payload.
Proof. reflexivity. Qed.

Lemma data_of_blank : data_of "" = None.
Proof. reflexivity. Qed.

Lemma decode_content payload v s fmt :
  is_content payload v s →
  eventType (decode_frame payload) = message
  ∧ fragment (decode_frame payload) = Some s
  ∧ chunk_of fmt (decode_frame payload) = chunk fmt v s.
Proof.
  intros (Hm & Hv & He & Ht). unfold chunk_of, fragment, utils.decode_frame.
  rewrite decide_False by done. rewrite Hv. cbn [eventType parsedPayload].
  rewrite He, Ht. cbn. rewrite Ht. by destruct fmt.
Qed.

Lemma decode_error payload msg :
  is_error payload msg →
  eventType (decode_frame payload) = error
  ∧ error_message error_field (decode_frame payload) = msg.
Proof.
  intros (Hm & v & Hv & He). unfold error_message, utils.decode_frame.
  rewrite decide_False by done. rewrite Hv. cbn [eventType parsedPayload].
  rewrite He. cbn. by rewrite He.
Qed.

Lemma decode_malformed payload :
  is_malformed payload → eventType (decode_frame payload) = unknown.
Proof.
  intros (Hm & [Hv|(v & Hv & He & Ht)]); unfold utils.decode_frame;
    rewrite decide_False by done; rewrite Hv; [done|].
  cbn [eventType]. by rewrite He, Ht.
Qed.

(** A chunk costs at least one line. *)
Lemma await_emit_shrinks fmt lines c rest :
  await fmt lines = (EMIT_CHUNK c, rest) → length rest < length lines.
Proof.
  induction lines as [|line lines IH]; cbn [utils.await]; [done|].
  destruct (data_of line) as [payload|].
  - destruct (eventType (decode_frame payload)).
    + intros [= _ <-]. cbn. lia.
    + done.
    + done.
    + intros H. apply IH in H. cbn. lia.
  - intros H. apply IH in H. cbn. lia.
Qed.

(** [await] ends in a chunk, the end of the stream or a failure. *)
Lemma await_not_awaiting fmt lines : (await fmt lines).1 ≠ AWAITING_FRAME.
Proof.
  induction lines as [|line lines IH]; cbn [utils.await]; [done|].
  destruct (data_of line) as [payload|]; [|done].
  by destruct (eventType (decode_frame payload)).
Qed.

Lemma next_yield_shrinks g c g' :
  next g = (Yield c, g') → length (transport g') < length (transport g).
Proof.
  unfold utils.next. destruct (state g); try done;
    destruct (await (format g) (transport g)) as [s rest] eqn:E;
    destruct s; try done; intros [= -> <-]; cbn [transport];
    by eapply await_emit_shrinks.
Qed.

(** Once there is more fuel than lines, more fuel changes nothing. *)
Lemma iterate_fuel n m g :
  length (transport g) < n → length (transport g) < m → iterate n g = iterate m g.
Proof.
  revert m g. induction n as [|n IH]; intros m g Hn Hm; [lia|].
  destruct m as [|m]; [lia|]. cbn [utils.iterate].
  destruct (next g) as [[c| |e] g'] eqn:E; [|done|done].
  apply next_yield_shrinks in E.
  by rewrite (IH m g') by lia.
Qed.

Lemma iterate_next_eq n g1 g2 : next g1 = next g2 → iterate (S n) g1 = iterate (S n) g2.
Proof. intros H. cbn [utils.iterate]. by rewrite H. Qed.

(** One call of [next] and the rest of the iteration. *)
Lemma consume_next g :
  consume g =
    match next g with
    | (Yield c, g') =>
        {| chunks := c :: chunks (consume g'); failure := failure (consume g');
           final := final (consume g') |}
    | (StopIteration, g') => {| chunks := []; failure := None; final := g' |}
    | (Raised e, g') => {| chunks := []; failure := Some e; final := g' |}
    end.
Proof.
  unfold utils.consume at 1. cbn [utils.iterate].
  destruct (next g) as [[c| |e] g'] eqn:E; [|done|done].
  apply next_yield_shrinks in E.
  unfold utils.consume. by rewrite (iterate_fuel (length (transport g)) (S (length (transport g')))) by lia.
Qed.

(** The iteration ends because the generator is finished or has failed,
    and then it stays so. *)
Lemma consume_final_terminal g :
  state (final (consume g)) ≠ AWAITING_FRAME
  ∧ (∀ c, state (final (consume g)) ≠ EMIT_CHUNK c)
  ∧ next (final (consume g)) = (StopIteration, final (consume g)).
Proof.
  assert (∀ g, state g = DONE ∨ (∃ e, state g = FAILED e) →
            state g ≠ AWAITING_FRAME ∧ (∀ c, state g ≠ EMIT_CHUNK c)
            ∧ next g = (StopIteration, g)) as Hterm.
  { intros g0 [H|[e H]]; unfold utils.next; rewrite H; by repeat split. }
  remember (length (transport g)) as n eqn:Hn.
  revert g Hn. induction (lt_wf n) as [n _ IH]. intros g ->.
  rewrite consume_next.
  destruct (next g) as [[c| |e] g'] eqn:E; cbn [final].
  - eapply IH; [|done]. by apply next_yield_shrinks in E.
  - apply Hterm. revert E. unfold utils.next.
    destruct (state g) eqn:Hs; try (intros [= <-]; by eauto);
      pose proof (await_not_awaiting (format g) (transport g)) as Hna;
      destruct (await (format g) (transport g)) as [s rest]; destruct s;
      try done; intros [= <-]; cbn; by eauto.
  - apply Hterm. revert E. unfold utils.next.
    destruct (state g) eqn:Hs; try done;
      destruct (await (format g) (transport g)) as [s rest]; destruct s;
      try done; intros [= <- <-]; cbn; by eauto.
Qed.

(** ** The iteration, line by line *)

Lemma consume_nil fmt :
  consume (start fmt []) =
    {| chunks := []; failure := None;
       final := {| state := DONE; transport := []; format := fmt |} |}.
Proof. by rewrite consume_next. Qed.

(** A line that is no frame, or a frame that decodes to nothing, is passed
    over. *)
Lemma consume_skip fmt line rest :
  data_of line = None
  ∨ (∃ payload, data_of line = Some payload
                ∧ eventType (decode_frame payload) = unknown) →
  consume (start fmt (line :: rest)) = consume (start fmt rest).
Proof.
  intros Hskip. rewrite (consume_next (start fmt (line :: rest))), (consume_next (start fmt rest)).
  assert (next (start fmt (line :: rest)) = next (start fmt rest)) as ->; [|done].
  unfold utils.next. cbn [state start transport format utils.await].
  destruct Hskip as [->|(payload & -> & ->)]; done.
Qed.

(** A generator that has just emitted a chunk resumes as one that awaits
    a frame. *)
Lemma consume_emit fmt c rest :
  consume {| state := EMIT_CHUNK c; transport := rest; format := fmt |}
  = consume (start fmt rest).
Proof. by rewrite (consume_next (start fmt rest)), consume_next. Qed.

Lemma consume_content fmt line payload rest :
  data_of line = Some payload →
  eventType (decode_frame payload) = message →
  consume (start fmt (line :: rest)) =
    {| chunks := chunk_of fmt (decode_frame payload) :: chunks (consume (start fmt rest));
       failure := failure (consume (start fmt rest));
       final := final (consume (start fmt rest)) |}.
Proof.
  intros Hd He. rewrite consume_next.
  unfold utils.next. cbn [state start transport format utils.await].
  rewrite Hd, He. by rewrite consume_emit.
Qed.

Lemma consume_error fmt line payload rest :
  data_of line = Some payload →
  eventType (decode_frame payload) = error →
  consume (start fmt (line :: rest)) =
    {| chunks := [];
       failure := Some (StreamError (error_message error_field (decode_frame payload)));
       final := {| state := FAILED (StreamError (error_message error_field
                                                   (decode_frame payload)));
                   transport := rest; format := fmt |} |}.
Proof.
  intros Hd He. rewrite consume_next.
  unfold utils.next. cbn [state start transport format utils.await].
  by rewrite Hd, He.
Qed.

Lemma consume_done fmt line payload rest :
  data_of line = Some payload →
  eventType (decode_frame payload) = done →
  consume (start fmt (line :: rest)) =
    {| chunks := []; failure := None;
       final := {| state := DONE; transport := rest; format := fmt |} |}.
Proof.
  intros Hd He. rewrite consume_next.
  unfold utils.next. cbn [state start transport format utils.await].
  by rewrite Hd, He.
Qed.

(** ** The iteration, record by record *)

Lemma consume_record_content fmt payload v s rest :
  is_content payload v s →
  consume (start fmt (record payload ++ rest)) =
    {| chunks := chunk fmt v s :: chunks (consume (start fmt rest));
       failure := failure (consume (start fmt rest));
       final := final (consume (start fmt rest)) |}.
Proof.
  intros Hc. destruct (decode_content _ _ _ fmt Hc) as (He & _ & Hch).
  cbn [record app]. rewrite (consume_content _ _ payload) by done.
  rewrite Hch. by rewrite consume_skip by (by left).
Qed.

Lemma consume_record_malformed fmt payload rest :
  is_malformed payload →
  consume (start fmt (record payload ++ rest)) = consume (start fmt rest).
Proof.
  intros Hm. apply decode_malformed in Hm. cbn [record app].
  rewrite consume_skip by (right; by exists payload).
  by rewrite consume_skip by (by left).
Qed.

Lemma consume_record_error fmt payload msg rest :
  is_error payload msg →
  consume (start fmt (record payload ++ rest)) =
    {| chunks := []; failure := Some (StreamError msg);
       final := {| state := FAILED (StreamError msg); transport := "" :: rest;
                   format := fmt |} |}.
Proof.
  intros He. apply decode_error in He as [He Hmsg]. cbn [record app].
  rewrite (consume_error _ _ payload) by done. by rewrite Hmsg.
Qed.

(** Content frames are yielded one by one, in the order of their arrival,
    before what follows them. *)
Lemma consume_contents fmt (contents : list (string * value * string)) rest :
  Forall (λ c, is_content c.1.1 c.1.2 c.2) contents →
  consume (start fmt (flat_map record contents.*1.*1 ++ rest)) =
    {| chunks := ((λ c, chunk fmt c.1.2 c.2) <$> contents)
                 ++ chunks (consume (start fmt rest));
       failure := failure (consume (start fmt rest));
       final := final (consume (start fmt rest)) |}.
Proof.
  induction 1 as [|[[payload v] s] contents Hc _ IH]; cbn [fmap list_fmap flat_map app].
  - by destruct (consume (start fmt rest)).
  - cbn [fst snd] in Hc. rewrite <- app_assoc.
    rewrite (consume_record_content _ _ v s) by done. by rewrite IH.
Qed.

(** ** The text of a stream *)

Lemma string_app_nil_r (s : string) : s ++ "" = s.
Proof.
  induction s as [|a s IH]; [done|].
  unfold String.append; fold String.append. by rewrite IH.
Qed.

Lemma string_concat_cons (s : string) (l : list string) :
  String.concat "" (s :: l) = s ++ String.concat "" l.
Proof. destruct l; [symmetry; apply string_app_nil_r | done]. Qed.

Lemma fragment_of_message payload :
  eventType (decode_frame payload) = message →
  ∃ s, fragment (decode_frame payload) = Some s.
Proof.
  unfold fragment. intros He. rewrite He. revert He. unfold utils.decode_frame.
  case_decide; [done|]. destruct (json_loads payload) as [v|]; [|done].
  cbn [eventType parsedPayload]. destruct (value_get error_field v); [done|].
  destruct (text_of v) as [s|] eqn:Ht; [|done]. intros _. exists s. cbn. by rewrite Ht.
Qed.

(** The text chunks of a stream, concatenated, are its aggregate text. *)
Lemma chunks_aggregate_text lines :
  String.concat "" (chunk_text <$> chunks (consume (start Ftext lines)))
  = aggregate_text lines.
Proof.
  unfold utils.aggregate_text, utils.frames.
  induction lines as [|line lines IH]; [by rewrite consume_nil|].
  cbn [omap list_omap]. destruct (data_of line) as [payload|] eqn:Hd; cbn [fmap option_fmap option_map].
  2:{ rewrite consume_skip by (by left). apply IH. }
  cbn [live]. destruct (eventType (decode_frame payload)) eqn:He.
  - rewrite (consume_content _ _ payload) by done. cbn [chunks fmap list_fmap omap list_omap].
    destruct (fragment_of_message _ He) as [s Hs].
    unfold chunk_of. rewrite Hs. cbn [default chunk_text].
    by rewrite !string_concat_cons, IH.
  - by rewrite (consume_error _ _ payload) by done.
  - by rewrite (consume_done _ _ payload) by done.
  - rewrite consume_skip by (right; by exists payload).
    cbn [omap list_omap]. unfold fragment at 1. rewrite He. apply IH.
Qed.

End DecoderFacts.

(** * The client and the decoders together *)

Section EndToEnd.
Import codegpt utils.
Variable json_dumps : value → string.
Variable json_loads : string → option value.
Variable error_field : string.
Variable server : list event → Request → Response.

Local Abbreviation next := (utils.next json_loads error_field).
Local Abbreviation consume := (utils.consume json_loads error_field).
Local Abbreviation aggregate_text := (utils.aggregate_text json_loads error_field).
Local Abbreviation equivalent_body := (utils.equivalent_body json_loads error_field).
Local Abbreviation is_content := (utils.is_content json_loads error_field).
Local Abbreviation is_error := (utils.is_error json_loads error_field).
Local Abbreviation is_malformed := (utils.is_malformed json_loads error_field).
Local Abbreviation chat_request := (codegpt.chat_request json_dumps).
Local Abbreviation chat_completion := (judini.chat_completion json_dumps json_loads server).

(** A streaming call that passes the checks and gets a 200 returns the
    generator over the lines of the answer, not started. *)
Lemma chat_completion_stream self agent_id messages format fmt h w :
  messages ≠ [] → agent_id ≠ "" → Format_of format = Some fmt →
  heap w !! headers self = Some h →
  let response := server (trace w) (chat_request h agent_id messages true) in
  status_code response = 200%Z →
  (chat_completion self agent_id messages true format w).1
  = Ok (Stream (start fmt (iter_lines response))).
Proof.
  intros Hm Ha Hf Hh response Hst. unfold judini.chat_completion.
  rewrite (chat_completion_sends _ _ _ _ _ _ _ _ _ _ fmt h) by done. cbv zeta.
  fold response. by rewrite decide_False by (by intros ?).
Qed.

(** A non-streaming call that passes the checks and gets a 200 returns
    what [handle_non_stream] returns, or raises what it raises. *)
Lemma chat_completion_non_stream self agent_id messages format fmt h w :
  messages ≠ [] → agent_id ≠ "" → Format_of format = Some fmt →
  heap w !! headers self = Some h →
  let response := server (trace w) (chat_request h agent_id messages false) in
  status_code response = 200%Z →
  (chat_completion self agent_id messages false format w).1
  = match handle_non_stream json_loads response fmt with
    | Ok v => Ok (Value v)
    | Raise e => Raise e
    end.
Proof.
  intros Hm Ha Hf Hh response Hst. unfold judini.chat_completion.
  rewrite (chat_completion_sends _ _ _ _ _ _ _ _ _ _ fmt h) by done. cbv zeta.
  fold response. by rewrite decide_False by (by intros ?).
Qed.

(** A malformed frame adds no chunk and no failure, wherever it stands. *)
Lemma consume_malformed_anywhere fmt pre bad post :
  is_malformed bad →
  chunks (consume (start fmt (pre ++ record bad ++ post)))
  = chunks (consume (start fmt (pre ++ post)))
  ∧ failure (consume (start fmt (pre ++ record bad ++ post)))
    = failure (consume (start fmt (pre ++ post))).
Proof.
  intros Hbad. induction pre as [|line pre [IHc IHf]]; cbn [app].
  { by rewrite consume_record_malformed. }
  destruct (data_of line) as [payload|] eqn:Hd.
  2:{ by rewrite !(consume_skip _ _ _ line) by (by left). }
  destruct (eventType (utils.decode_frame json_loads error_field payload)) eqn:He.
  - rewrite !(consume_content _ _ _ line payload) by done. cbn [chunks failure].
    by rewrite IHc, IHf.
  - by rewrite !(consume_error _ _ _ line payload) by done.
  - by rewrite !(consume_done _ _ _ line payload) by done.
  - by rewrite !(consume_skip _ _ _ line) by (right; by exists payload).
Qed.

(** C1. A streaming call whose answer carries N well-formed content
    frames and then an error frame (and anything after it) returns a
    generator that yields the N chunks in the order of arrival and then
    fails with the [StreamError] that carries the server's message; the
    failed generator yields nothing more. *)
Theorem stream_error_after_chunks self agent_id messages format fmt h w
    (contents : list (string * value * string)) err msg rest :
  messages ≠ [] → agent_id ≠ "" → Format_of format = Some fmt →
  heap w !! headers self = Some h →
  let response := server (trace w) (chat_request h agent_id messages true) in
  status_code response = 200%Z →
  Forall (λ c, is_content c.1.1 c.1.2 c.2) contents →
  is_error err msg →
  iter_lines response = (flat_map record contents.*1.*1 ++ record err ++ rest)%list →
  ∃ g, (chat_completion self agent_id messages true format w).1 = Ok (Stream g)
       ∧ chunks (consume g) = (λ c, chunk fmt c.1.2 c.2) <$> contents
       ∧ length (chunks (consume g)) = length contents
       ∧ failure (consume g) = Some (StreamError msg)
       ∧ state (final (consume g)) = FAILED (StreamError msg)
       ∧ next (final (consume g)) = (StopIteration, final (consume g)).
Proof.
  intros Hm Ha Hf Hh response Hst Hcs Herr Hlines.
  eexists. split; [by apply chat_completion_stream|]. fold response. rewrite Hlines.
  rewrite consume_contents by done. rewrite (consume_record_error _ _ _ _ msg) by done.
  cbn [chunks failure final state]. rewrite app_nil_r.
  split; [done|]. split; [by rewrite length_fmap|].
  split; [done|]. split; [done|]. by unfold utils.next.
Qed.


(** C3. A streaming call whose answer carries a content frame, a
    malformed frame (a payload that is not JSON, or JSON without the
    expected keys) and a second content frame returns a generator that
    yields the chunks of the two content frames and ends without a
    failure. *)
Theorem malformed_frame_skipped self agent_id messages format fmt h w
    p1 v1 s1 bad p2 v2 s2 :
  messages ≠ [] → agent_id ≠ "" → Format_of format = Some fmt →
  heap w !! headers self = Some h →
  let response := server (trace w) (chat_request h agent_id messages true) in
  status_code response = 200%Z →
  is_content p1 v1 s1 → is_malformed bad → is_content p2 v2 s2 →
  iter_lines response = (record p1 ++ record bad ++ record p2)%list →
  ∃ g, (chat_completion self agent_id messages true format w).1 = Ok (Stream g)
       ∧ chunks (consume g) = [chunk fmt v1 s1; chunk fmt v2 s2]
       ∧ failure (consume g) = None
       ∧ state (final (consume g)) = DONE.
Proof.
  intros Hm Ha Hf Hh response Hst H1 Hbad H2 Hlines.
  eexists. split; [by apply chat_completion_stream|]. fold response. rewrite Hlines.
  rewrite (consume_record_content _ _ _ _ v1 s1) by done.
  rewrite consume_record_malformed by done.
  rewrite <- (app_nil_r (record p2)).
  rewrite (consume_record_content _ _ _ _ v2 s2) by done.
  by rewrite consume_nil.
Qed.

(** C4. A non-streaming call whose answer is a JSON document with the
    textual field returns that field as a string in the text format and
    the whole parsed document in the json format; when the body does not
    parse, or the field is missing, the call raises a [DecodeError] that
    carries the raw body. *)
Theorem non_stream_decode self agent_id messages h w :
  messages ≠ [] → agent_id ≠ "" → heap w !! headers self = Some h →
  let response := server (trace w) (chat_request h agent_id messages false) in
  status_code response = 200%Z →
  (∀ v s, json_loads (text response) = Some v → text_of v = Some s →
     (chat_completion self agent_id messages false "text" w).1 = Ok (Value (VStr s))
     ∧ (chat_completion self agent_id messages false "json" w).1 = Ok (Value v))
  ∧ (json_loads (text response) = None
     ∨ (∃ v, json_loads (text response) = Some v ∧ text_of v = None) →
     ∀ format, format ∈ ["json"; "text"] →
       (chat_completion self agent_id messages false format w).1
       = Raise (DecodeError (text response))).
Proof.
  intros Hm Ha Hh response Hst. split.
  - intros v s Hv Ht.
    rewrite (chat_completion_non_stream _ _ _ _ Ftext h),
      (chat_completion_non_stream _ _ _ _ Fjson h) by done.
    fold response. unfold handle_non_stream. by rewrite Hv, Ht.
  - intros Hbad format Hf.
    assert (∃ fmt, Format_of format = Some fmt) as [fmt Hfmt].
    { destruct (Format_of format) eqn:E; [by eexists|]. by apply Format_of_None in E. }
    rewrite (chat_completion_non_stream _ _ _ _ fmt h) by done.
    fold response. unfold handle_non_stream.
    destruct Hbad as [->|(v & -> & ->)]; done.
Qed.

End EndToEnd.

(** * The theorems at work on the sample data *)

Ltac evaluate :=
  first [ reflexivity
        | vm_compute; reflexivity
        | vm_compute; discriminate
        | vm_compute; intros [=] ].

Ltac evaluate_content :=
  unfold utils.is_content, utils.is_error, utils.is_malformed;
  repeat match goal with
         | |- _ ∧ _ => split
         | |- ∃ _, _ => eexists
         end; evaluate.

(** The client of the samples is the one the constructor makes. *)
Lemma sample_client_constructed :
  codegpt.__init__ (Some "sk-test") None Sample.initial = (Ok Sample.client, Sample.world).
Proof. reflexivity. Qed.

Lemma sample_client_live :
  heap Sample.world !! codegpt.headers Sample.client = Some Sample.client_headers.
Proof. vm_compute. reflexivity. Qed.

(** C1 on two chunks, an error frame and a frame after it. *)
Lemma stream_error_after_chunks_witness :
  ∃ g, (judini.chat_completion Json.dumps Json.loads (Sample.server Sample.failing_stream)
          Sample.client Sample.agent [Sample.hello] true "text" Sample.world).1
       = Ok (codegpt.Stream g)
       ∧ utils.chunks (utils.consume Json.loads "error" g) = [VStr "Hel"; VStr "lo"]
       ∧ length (utils.chunks (utils.consume Json.loads "error" g)) = 2
       ∧ utils.failure (utils.consume Json.loads "error" g)
         = Some (StreamError (VStr "overloaded"))
       ∧ utils.state (utils.final (utils.consume Json.loads "error" g))
         = utils.FAILED (StreamError (VStr "overloaded"))
       ∧ utils.next Json.loads "error" (utils.final (utils.consume Json.loads "error" g))
         = (utils.StopIteration, utils.final (utils.consume Json.loads "error" g)).
Proof.
  apply (stream_error_after_chunks Json.dumps Json.loads "error"
           (Sample.server Sample.failing_stream) Sample.client Sample.agent [Sample.hello]
           "text" Ftext Sample.client_headers Sample.world
           [(Json.dumps (Sample.delta "Hel"), Sample.delta "Hel", "Hel");
            (Json.dumps (Sample.delta "lo"), Sample.delta "lo", "lo")]
           (Json.dumps Sample.overloaded) (VStr "overloaded")
           (utils.record (Json.dumps (Sample.delta "!")))).
  - discriminate.
  - discriminate.
  - reflexivity.
  - vm_compute. reflexivity.
  - reflexivity.
  - repeat constructor; evaluate_content.
  - evaluate_content.
  - vm_compute. reflexivity.
Defined.


(** C3 on a keep-alive between two content frames. *)
Lemma malformed_frame_skipped_witness :
  ∃ g, (judini.chat_completion Json.dumps Json.loads (Sample.server Sample.noisy_stream)
          Sample.client Sample.agent [Sample.hello] true "text" Sample.world).1
       = Ok (codegpt.Stream g)
       ∧ utils.chunks (utils.consume Json.loads "error" g) = [VStr "Hel"; VStr "lo"]
       ∧ utils.failure (utils.consume Json.loads "error" g) = None
       ∧ utils.state (utils.final (utils.consume Json.loads "error" g)) = utils.DONE.
Proof.
  apply (malformed_frame_skipped Json.dumps Json.loads "error"
           (Sample.server Sample.noisy_stream) Sample.client Sample.agent [Sample.hello]
           "text" Ftext Sample.client_headers Sample.world
           (Json.dumps (Sample.delta "Hel")) (Sample.delta "Hel") "Hel"
           "ping"
           (Json.dumps (Sample.delta "lo")) (Sample.delta "lo") "lo").
  - discriminate.
  - discriminate.
  - reflexivity.
  - vm_compute. reflexivity.
  - reflexivity.
  - evaluate_content.
  - split; [evaluate|]. left. evaluate.
  - evaluate_content.
  - vm_compute. reflexivity.
Defined.

(** C4 on a document with the text, in both formats, and on two bodies
    that do not decode. *)
Lemma non_stream_decode_witness :
  ((judini.chat_completion Json.dumps Json.loads (Sample.server Sample.hello_whole)
      Sample.client Sample.agent [Sample.hello] false "text" Sample.world).1
   = Ok (codegpt.Value (VStr "Hello"))
   ∧ (judini.chat_completion Json.dumps Json.loads (Sample.server Sample.hello_whole)
        Sample.client Sample.agent [Sample.hello] false "json" Sample.world).1
     = Ok (codegpt.Value (Sample.delta "Hello")))
  ∧ (judini.chat_completion Json.dumps Json.loads (Sample.server Sample.garbled)
       Sample.client Sample.agent [Sample.hello] false "text" Sample.world).1
    = Raise (DecodeError "<html>Bad Gateway</html>")
  ∧ (judini.chat_completion Json.dumps Json.loads (Sample.server Sample.no_text)
       Sample.client Sample.agent [Sample.hello] false "json" Sample.world).1
    = Raise (DecodeError (text Sample.no_text)).
Proof.
  split; [|split].
  - destruct (non_stream_decode Json.dumps Json.loads (Sample.server Sample.hello_whole)
                Sample.client Sample.agent [Sample.hello] Sample.client_headers Sample.world)
      as [Hok _]; [discriminate|discriminate|vm_compute; reflexivity|reflexivity|].
    apply Hok; vm_compute; reflexivity.
  - destruct (non_stream_decode Json.dumps Json.loads (Sample.server Sample.garbled)
                Sample.client Sample.agent [Sample.hello] Sample.client_headers Sample.world)
      as [_ Hbad]; [discriminate|discriminate|vm_compute; reflexivity|reflexivity|].
    apply Hbad; [left; vm_compute; reflexivity|]. apply list_elem_of_further, list_elem_of_here.
  - destruct (non_stream_decode Json.dumps Json.loads (Sample.server Sample.no_text)
                Sample.client Sample.agent [Sample.hello] Sample.client_headers Sample.world)
      as [_ Hbad]; [discriminate|discriminate|vm_compute; reflexivity|reflexivity|].
    apply Hbad; [|apply list_elem_of_here].
    right. exists (VDict [("id", VInt 7)]). split; vm_compute; reflexivity.
Defined.

(** C5, as stated, fails at a 201: the status is a 2xx, and the call
    raises the exception with the status and the body and hands nothing
    to a decoder. *)
Lemma transport_error_on_201 :
  (200 ≤ status_code Sample.created < 300)%Z
  ∧ (judini.chat_completion Json.dumps Json.loads (Sample.server Sample.created)
       Sample.client Sample.agent [Sample.hello] false "text" Sample.world).1
    = Raise (Exception (codegpt.api_response_was Sample.created))
  ∧ decoded_of (added Sample.world
                  (judini.chat_completion Json.dumps Json.loads (Sample.server Sample.created)
                     Sample.client Sample.agent [Sample.hello] false "text" Sample.world).2)
    = [].
Proof. split; [done|]. split; vm_compute; reflexivity. Qed.

(** C5, amended, on a 404 and on a 200. *)
Lemma chat_completion_status_witness :
  ((judini.chat_completion Json.dumps Json.loads (Sample.server Sample.not_found)
      Sample.client Sample.agent [Sample.hello] false "text" Sample.world).1
   = Raise (Exception ("JUDINI: API Response was: 404 Agent not found "
                       ++ codegpt.JUDINI_TUTORIAL))
   ∧ decoded_of (added Sample.world
                   (judini.chat_completion Json.dumps Json.loads
                      (Sample.server Sample.not_found)
                      Sample.client Sample.agent [Sample.hello] false "text" Sample.world).2)
     = [])
  ∧ (judini.chat_completion Json.dumps Json.loads (Sample.server Sample.hello_whole)
       Sample.client Sample.agent [Sample.hello] false "text" Sample.world).1
    = Ok (codegpt.Value (VStr "Hello"))
  ∧ decoded_of (added Sample.world
                  (judini.chat_completion Json.dumps Json.loads
                     (Sample.server Sample.hello_whole)
                     Sample.client Sample.agent [Sample.hello] false "text" Sample.world).2)
    = [Sample.hello_whole].
Proof.
  split.
  - destruct (chat_completion_status Json.dumps (Sample.server Sample.not_found)
                utils.StreamDecoder utils.handle_stream (utils.handle_non_stream Json.loads)
                Sample.client Sample.agent [Sample.hello] false "text" Ftext
                Sample.client_headers Sample.world)
      as [Hbad _]; [discriminate|discriminate|reflexivity|vm_compute; reflexivity|].
    destruct Hbad as (Hr & _ & Hd); [discriminate|]. split; [exact Hr|exact Hd].
  - destruct (chat_completion_status Json.dumps (Sample.server Sample.hello_whole)
                utils.StreamDecoder utils.handle_stream (utils.handle_non_stream Json.loads)
                Sample.client Sample.agent [Sample.hello] false "text" Ftext
                Sample.client_headers Sample.world)
      as [_ Hok]; [discriminate|discriminate|reflexivity|vm_compute; reflexivity|].
    destruct Hok as (Hr & _ & Hd); [reflexivity|]. split; [exact Hr|exact Hd].
Defined.

(** C6 on each of the three rejected arguments. *)
Lemma chat_completion_validation_witness :
  (∃ msg, judini.chat_completion Json.dumps Json.loads (Sample.server Sample.hello_whole)
            Sample.client Sample.agent [] false "text" Sample.world
          = (Raise (ValueError msg), Sample.world)
          ∧ requests_of (added Sample.world
               (judini.chat_completion Json.dumps Json.loads (Sample.server Sample.hello_whole)
                  Sample.client Sample.agent [] false "text" Sample.world).2) = [])
  ∧ (∃ msg, judini.chat_completion Json.dumps Json.loads (Sample.server Sample.hello_whole)
              Sample.client "" [Sample.hello] false "text" Sample.world
            = (Raise (ValueError msg), Sample.world)
            ∧ requests_of (added Sample.world
                 (judini.chat_completion Json.dumps Json.loads
                    (Sample.server Sample.hello_whole)
                    Sample.client "" [Sample.hello] false "text" Sample.world).2) = [])
  ∧ (∃ msg, judini.chat_completion Json.dumps Json.loads (Sample.server Sample.hello_whole)
              Sample.client Sample.agent [Sample.hello] true "xml" Sample.world
            = (Raise (ValueError msg), Sample.world)
            ∧ requests_of (added Sample.world
                 (judini.chat_completion Json.dumps Json.loads
                    (Sample.server Sample.hello_whole)
                    Sample.client Sample.agent [Sample.hello] true "xml" Sample.world).2) = []).
Proof.
  split; [|split].
  - apply (chat_completion_validation Json.dumps (Sample.server Sample.hello_whole)
             utils.StreamDecoder utils.handle_stream (utils.handle_non_stream Json.loads)).
    left. reflexivity.
  - apply (chat_completion_validation Json.dumps (Sample.server Sample.hello_whole)
             utils.StreamDecoder utils.handle_stream (utils.handle_non_stream Json.loads)).
    right. left. reflexivity.
  - apply (chat_completion_validation Json.dumps (Sample.server Sample.hello_whole)
             utils.StreamDecoder utils.handle_stream (utils.handle_non_stream Json.loads)).
    right. right. intros Hin.
    repeat (apply elem_of_cons in Hin as [Hin|Hin]; [discriminate|]).
    by apply elem_of_nil in Hin.
Defined.

(** C7 on a conversation of four messages. *)
Lemma chat_completion_messages_order_witness :
  (∀ req,
     req ∈ requests_of
             (added Sample.world
                (judini.chat_completion Json.dumps Json.loads (Sample.server Sample.hello_whole)
                   Sample.client Sample.agent Sample.conversation false "text"
                   Sample.world).2) →
     ∃ payload, req_data req = Some (Json.dumps payload)
                ∧ value_get "messages" payload = Some (VList Sample.conversation))
  ∧ length (requests_of
              (added Sample.world
                 (judini.chat_completion Json.dumps Json.loads
                    (Sample.server Sample.hello_whole)
                    Sample.client Sample.agent Sample.conversation false "text"
                    Sample.world).2)) = 1.
Proof.
  destruct (chat_completion_messages_order Json.dumps (Sample.server Sample.hello_whole)
              utils.StreamDecoder utils.handle_stream (utils.handle_non_stream Json.loads)
              Sample.client Sample.agent Sample.conversation false "text" Sample.world)
    as [Hreq Hone]; [discriminate|].
  split; [exact Hreq|]. apply Hone.
  - discriminate.
  - apply list_elem_of_further, list_elem_of_here.
  - exists Sample.client_headers. vm_compute. reflexivity.
Defined.

(** C8 on a streamed and on a whole answer: the request is the same, with
    ["json"] in its payload, and the decoder gets ["text"]. *)
Lemma chat_completion_wire_format_witness :
  (let req := codegpt.chat_request Json.dumps Sample.client_headers Sample.agent
                [Sample.hello] false in
   requests_of (added Sample.world
                  (judini.chat_completion Json.dumps Json.loads
                     (Sample.server Sample.hello_whole)
                     Sample.client Sample.agent [Sample.hello] false "text" Sample.world).2)
   = [req]
   ∧ req_data req
     = Some (Json.dumps (codegpt.chat_payload Sample.agent [Sample.hello] false))
   ∧ value_get "format" (codegpt.chat_payload Sample.agent [Sample.hello] false)
     = Some (VStr "json")
   ∧ added Sample.world
       (judini.chat_completion Json.dumps Json.loads (Sample.server Sample.hello_whole)
          Sample.client Sample.agent [Sample.hello] false "text" Sample.world).2
     = [Http req; HandleNonStream Sample.hello_whole Ftext]
   ∧ (judini.chat_completion Json.dumps Json.loads (Sample.server Sample.hello_whole)
        Sample.client Sample.agent [Sample.hello] false "text" Sample.world).1
     = Ok (codegpt.Value (VStr "Hello")))
  ∧ requests_of (added Sample.world
                   (judini.chat_completion Json.dumps Json.loads
                      (Sample.server Sample.hello_whole)
                      Sample.client Sample.agent [Sample.hello] false "json" Sample.world).2)
    = requests_of (added Sample.world
                     (judini.chat_completion Json.dumps Json.loads
                        (Sample.server Sample.hello_whole)
                        Sample.client Sample.agent [Sample.hello] false "text" Sample.world).2).
Proof.
  destruct (chat_completion_wire_format Json.dumps (Sample.server Sample.hello_whole)
              utils.StreamDecoder utils.handle_stream (utils.handle_non_stream Json.loads)
              Sample.client Sample.agent [Sample.hello] false "text" Sample.world)
    as (Hsends & _ & Hsame & _).
  split.
  - destruct (Hsends Ftext Sample.client_headers) as (Hreq & Hdata & Hformat & Hok);
      [discriminate|discriminate|reflexivity|vm_compute; reflexivity|].
    destruct Hok as [Hadded Hr]; [reflexivity|].
    split; [exact Hreq|]. split; [exact Hdata|]. split; [exact Hformat|].
    split; [exact Hadded|exact Hr].
  - apply Hsame; vm_compute; repeat constructor.
Defined.

(** C10 on a chat, an upload and a listing. *)
Lemma headers_never_mutated_witness :
  heap (codegpt.after_all Json.dumps Json.loads (Sample.server Sample.hello_whole)
          utils.StreamDecoder utils.handle_stream (utils.handle_non_stream Json.loads)
          Sample.as_is Sample.as_is Sample.no_type Sample.whole_path Sample.client
          [codegpt.Call_chat_completion Sample.agent [Sample.hello] false "text";
           codegpt.Call_upload_document "notes.txt";
           codegpt.Call_get_agents]
          Sample.world)
    !! codegpt.headers Sample.client
  = Some Sample.client_headers.
Proof.
  destruct (headers_never_mutated Json.dumps Json.loads (Sample.server Sample.hello_whole)
              utils.StreamDecoder utils.handle_stream (utils.handle_non_stream Json.loads)
              Sample.as_is Sample.as_is Sample.no_type Sample.whole_path
              (Some "sk-test") None Sample.initial Sample.client Sample.world
              [codegpt.Call_chat_completion Sample.agent [Sample.hello] false "text";
               codegpt.Call_upload_document "notes.txt";
               codegpt.Call_get_agents])
    as (h & Hh & Hafter & _); [reflexivity|].
  rewrite sample_client_live in Hh. injection Hh as <-. exact Hafter.
Defined.

(** ** The definitions at work *)

(** The spec's example stream in the text format: the chunks, the end
    without a failure, and the text they add up to. *)
Example hello_stream_chunks :
  let r := utils.consume Json.loads "error" (utils.handle_stream Sample.hello_stream Ftext) in
  utils.chunks r = [VStr "Hel"; VStr "lo"] ∧ utils.failure r = None
  ∧ utils.state (utils.final r) = utils.DONE
  ∧ String.concat "" (utils.chunk_text <$> utils.chunks r) = "Hello".
Proof. vm_compute. done. Qed.

(** The json format yields the parsed payloads. *)
Example hello_stream_json :
  utils.chunks (utils.consume Json.loads "error"
                  (utils.handle_stream Sample.hello_stream Fjson))
  = [Sample.delta "Hel"; Sample.delta "lo"].
Proof. vm_compute. reflexivity. Qed.

(** [update_agent] with an empty name, [topk=0], [temperature=0.0] and
    [is_public=False] sends nothing and raises. *)
Example update_agent_only_falsy :
  codegpt.update_agent Json.dumps Json.loads (Sample.server Sample.hello_whole) Sample.as_is
    Sample.client Sample.agent (VStr "") VNone VNone VNone (VInt 0) (VFloat 0)
    (VBool false) VNone Sample.world
  = (Raise (ValueError "JUDINI: At least one parameter should be provided"), Sample.world).
Proof. vm_compute. reflexivity. Qed.

(** A call with a truthy [topk] sends the payload with that entry alone. *)
Example update_agent_topk :
  req_data <$> requests_of
    (added Sample.world
       (codegpt.update_agent Json.dumps Json.loads (Sample.server Sample.hello_whole)
          Sample.as_is Sample.client Sample.agent VNone VNone VNone VNone (VInt 5) VNone
          (VBool false) VNone Sample.world).2)
  = [Some (Json.dumps (VDict [("topk", VInt 5)]))].
Proof. vm_compute. reflexivity. Qed.

(** The request of a chat carries the copy of the headers with
    [media_type]; the client's headers stay as they were. *)
Example chat_completion_copy :
  let w' := (judini.chat_completion Json.dumps Json.loads (Sample.server Sample.hello_whole)
               Sample.client Sample.agent [Sample.hello] false "json" Sample.world).2 in
  req_headers <$> requests_of (added Sample.world w')
  = [<["media_type" := "text/event-stream"]> Sample.client_headers]
  ∧ heap w' !! codegpt.headers Sample.client = Some Sample.client_headers.
Proof. vm_compute. done. Qed.

(** ** The further properties at work *)

Local Abbreviation sample_after r :=
  (codegpt.after Json.dumps Json.loads (Sample.server r) utils.StreamDecoder
     utils.handle_stream (utils.handle_non_stream Json.loads)
     Sample.as_is Sample.as_is Sample.no_type Sample.whole_path Sample.client).
Local Abbreviation sample_perform r :=
  (codegpt.perform Json.dumps Json.loads (Sample.server r) utils.StreamDecoder
     utils.handle_stream (utils.handle_non_stream Json.loads)
     Sample.as_is Sample.as_is Sample.no_type Sample.whole_path Sample.client).
Local Abbreviation sample_upload r :=
  (codegpt.upload_document Json.loads (Sample.server r) Sample.no_type Sample.whole_path
     Sample.client).
Local Abbreviation sample_upload_request :=
  (codegpt.upload_request Sample.no_type Sample.whole_path Sample.client_headers
     "notes.txt" "Call me Ishmael.").

(** X1 with no key at all. *)
Lemma init_without_key_witness :
  codegpt.__init__ None (Some "org-1") Sample.initial
  = (Raise (Exception codegpt.key_not_found), Sample.initial).
Proof.
  apply (init_without_key None (Some "org-1") Sample.initial).
  - apply list_elem_of_here.
  - vm_compute. apply list_elem_of_here.
Defined.

(** X2 with the key as an argument and the organization of the
    environment. *)
Lemma init_headers_exact_witness :
  codegpt.__init__ (Some "sk-test") None Sample.with_env
  = (Ok Sample.client,
     set_heap {[0 := <["CodeGPT-Org-Id" := "org-1"]> Sample.client_headers]} Sample.with_env).
Proof.
  destruct (init_headers_exact (Some "sk-test") None Sample.with_env "sk-test") as [_ Hinit];
    [reflexivity|discriminate|].
  exact Hinit.
Defined.

(** X3 on the client of the samples: an upload and a second constructor. *)
Lemma clients_share_nothing_witness :
  heap (sample_after Sample.uploaded (codegpt.Call_upload_document "notes.txt") Sample.world)
    !! 0 = heap Sample.world !! 0
  ∧ heap (codegpt.__init__ (Some "sk-other") None Sample.world).2 !! 0
    = heap Sample.world !! 0
  ∧ ∀ other, (codegpt.__init__ (Some "sk-other") None Sample.world).1 = Ok other →
             codegpt.headers other ≠ 0.
Proof.
  apply (clients_share_nothing Json.dumps Json.loads (Sample.server Sample.uploaded)
           utils.StreamDecoder utils.handle_stream (utils.handle_non_stream Json.loads)
           Sample.as_is Sample.as_is Sample.no_type Sample.whole_path Sample.client
           (codegpt.Call_upload_document "notes.txt") (Some "sk-other") None Sample.world 0).
  exists Sample.client_headers. vm_compute. reflexivity.
Defined.

(** X5 on the request of an upload. *)
Lemma requests_carry_client_headers_witness :
  (∀ k, k ≠ "media_type" → k ≠ "Content-Type" →
        req_headers sample_upload_request !! k = Sample.client_headers !! k)
  ∧ req_headers sample_upload_request !! "Authorization"
    = Sample.client_headers !! "Authorization".
Proof.
  apply (requests_carry_client_headers Json.dumps Json.loads (Sample.server Sample.uploaded)
           utils.StreamDecoder utils.handle_stream (utils.handle_non_stream Json.loads)
           Sample.as_is Sample.as_is Sample.no_type Sample.whole_path Sample.client
           (codegpt.Call_upload_document "notes.txt") Sample.client_headers Sample.world).
  - vm_compute. reflexivity.
  - vm_compute. apply list_elem_of_here.
Defined.

(** X6 on a deletion that the server answers with a 404. *)
Lemma non_200_raises_witness :
  (sample_perform Sample.not_found (codegpt.Call_delete_agent Sample.agent) Sample.world).1
  = Raise (Exception ("JUDINI: API Response was: 404 Agent not found "
                      ++ codegpt.JUDINI_TUTORIAL))
  ∧ added Sample.world
      (sample_after Sample.not_found (codegpt.Call_delete_agent Sample.agent) Sample.world)
    = [Http (codegpt.plain DELETE (codegpt.base_url ++ "/agent/" ++ Sample.agent)
               Sample.client_headers None)].
Proof.
  apply (non_200_raises Json.dumps Json.loads (Sample.server Sample.not_found)
           utils.StreamDecoder utils.handle_stream (utils.handle_non_stream Json.loads)
           Sample.as_is Sample.as_is Sample.no_type Sample.whole_path Sample.client
           (codegpt.Call_delete_agent Sample.agent) Sample.client_headers Sample.world
           (codegpt.plain DELETE (codegpt.base_url ++ "/agent/" ++ Sample.agent)
              Sample.client_headers None)).
  - vm_compute. reflexivity.
  - vm_compute. reflexivity.
  - discriminate.
Defined.

(** X7 on [get_agent] and a page of HTML with status 200. *)
Lemma unparsable_200_raises_witness :
  (sample_perform Sample.garbled (codegpt.Call_get_agent Sample.agent) Sample.world).1
  = Raise (JSONDecodeError "<html>Bad Gateway</html>").
Proof.
  apply (unparsable_200_raises Json.dumps Json.loads (Sample.server Sample.garbled)
           utils.StreamDecoder utils.handle_stream (utils.handle_non_stream Json.loads)
           Sample.as_is Sample.as_is Sample.no_type Sample.whole_path Sample.client
           (codegpt.Call_get_agent Sample.agent) Sample.client_headers Sample.world
           (codegpt.plain GET (codegpt.base_url ++ "/agent/" ++ Sample.agent
                               ++ "?populate=agent_documents")
              Sample.client_headers None)).
  - vm_compute. reflexivity.
  - reflexivity.
  - vm_compute. reflexivity.
  - reflexivity.
  - vm_compute. reflexivity.
Defined.

(** X8 on a list of two agents, and on a list with a number in it. *)
Lemma listings_in_order_witness :
  (codegpt.get_agents Json.loads (Sample.server Sample.listing) Sample.record_only
     Sample.client Sample.world).1 = Ok (VList [Sample.ada; Sample.bob])
  ∧ (codegpt.get_agents Json.loads (Sample.server Sample.broken_listing) Sample.record_only
       Sample.client Sample.world).1 = Raise TypeError.
Proof.
  split.
  - destruct (listings_in_order Json.loads (Sample.server Sample.listing)
                Sample.record_only Sample.record_only Sample.client Sample.client_headers
                Sample.world [Sample.ada; Sample.bob]) as [Hagents _];
      [vm_compute; reflexivity|].
    destruct Hagents as [Hok _]; [reflexivity|vm_compute; reflexivity|].
    apply Hok. repeat constructor.
  - destruct (listings_in_order Json.loads (Sample.server Sample.broken_listing)
                Sample.record_only Sample.record_only Sample.client Sample.client_headers
                Sample.world [Sample.ada; VInt 3; Sample.bob]) as [Hagents _];
      [vm_compute; reflexivity|].
    destruct Hagents as [_ Hbad]; [reflexivity|vm_compute; reflexivity|].
    apply (Hbad [Sample.ada] (VInt 3) [Sample.bob]); [reflexivity| |reflexivity].
    repeat constructor. by exists Sample.ada.
Defined.

(** X9 on the file of the samples. *)
Lemma upload_document_result_witness :
  requests_of (added Sample.world (sample_upload Sample.uploaded "notes.txt" Sample.world).2)
  = [sample_upload_request]
  ∧ (sample_upload Sample.uploaded "notes.txt" Sample.world).1
    = Ok (VDict [("id", VStr "doc-1")]).
Proof.
  destruct (upload_document_result Json.loads (Sample.server Sample.uploaded)
              Sample.no_type Sample.whole_path Sample.client "notes.txt" "Call me Ishmael."
              "application/json" Sample.client_headers Sample.world)
    as (Hreq & _ & Hok); [vm_compute; reflexivity|vm_compute; reflexivity|reflexivity|].
  split; [exact Hreq|].
  apply (Hok eq_refl [("documentId", VStr "doc-1")]). vm_compute. reflexivity.
Defined.

(** X10 on a path where nothing exists. *)
Lemma upload_document_missing_file_witness :
  sample_upload Sample.uploaded "missing.pdf" Sample.world
  = (Raise (FileNotFoundError "JUDINI: File not found: missing.pdf"), Sample.world).
Proof.
  apply (upload_document_missing_file Json.loads (Sample.server Sample.uploaded)
           Sample.no_type Sample.whole_path Sample.client "missing.pdf" Sample.world);
    vm_compute; reflexivity.
Defined.

(** X15 on a directory. *)
Lemma upload_document_unopenable_witness :
  (sample_upload Sample.uploaded "reports" Sample.world).1
  = Raise (IsADirectoryError "reports")
  ∧ added Sample.world (sample_upload Sample.uploaded "reports" Sample.world).2 = []
  ∧ heap (sample_upload Sample.uploaded "reports" Sample.world).2
      !! codegpt.headers Sample.client = Some Sample.client_headers.
Proof.
  destruct (upload_document_unopenable Json.loads (Sample.server Sample.uploaded)
              Sample.no_type Sample.whole_path Sample.client "reports"
              (IsADirectoryError "reports") "application/json" Sample.client_headers
              Sample.world) as (Hrun & Hadded & Hheap);
    [vm_compute; reflexivity ..|].
  split; [by rewrite Hrun|]. split; [exact Hadded|exact Hheap].
Defined.

(** X11 after a chat and a listing. *)
Lemma upload_document_after_calls_witness :
  ∃ h, heap Sample.world !! codegpt.headers Sample.client = Some h
       ∧ requests_of
           (added
              (codegpt.after_all Json.dumps Json.loads (Sample.server Sample.uploaded)
                 utils.StreamDecoder utils.handle_stream (utils.handle_non_stream Json.loads)
                 Sample.as_is Sample.as_is Sample.no_type Sample.whole_path Sample.client
                 [codegpt.Call_chat_completion Sample.agent [Sample.hello] false "text";
                  codegpt.Call_get_agents] Sample.world)
              (sample_upload Sample.uploaded "notes.txt"
                 (codegpt.after_all Json.dumps Json.loads (Sample.server Sample.uploaded)
                    utils.StreamDecoder utils.handle_stream
                    (utils.handle_non_stream Json.loads)
                    Sample.as_is Sample.as_is Sample.no_type Sample.whole_path Sample.client
                    [codegpt.Call_chat_completion Sample.agent [Sample.hello] false "text";
                     codegpt.Call_get_agents] Sample.world)).2)
         = [codegpt.upload_request Sample.no_type Sample.whole_path h
              "notes.txt" "Call me Ishmael."]
       ∧ req_headers (codegpt.upload_request Sample.no_type Sample.whole_path h
                        "notes.txt" "Call me Ishmael.") !! "Content-Type" = None
       ∧ is_Some (req_headers (codegpt.upload_request Sample.no_type Sample.whole_path h
                                 "notes.txt" "Call me Ishmael.") !! "Authorization").
Proof.
  apply (upload_document_after_calls Json.dumps Json.loads (Sample.server Sample.uploaded)
           utils.StreamDecoder utils.handle_stream (utils.handle_non_stream Json.loads)
           Sample.as_is Sample.as_is Sample.no_type Sample.whole_path
           (Some "sk-test") None Sample.initial Sample.client Sample.world
           [codegpt.Call_chat_completion Sample.agent [Sample.hello] false "text";
            codegpt.Call_get_agents] "notes.txt" "Call me Ishmael.").
  - reflexivity.
  - vm_compute. reflexivity.
Defined.

(** X12 on a call that sets [topk] alone. *)
Lemma update_agent_sends_witness :
  added Sample.world
    (codegpt.update_agent Json.dumps Json.loads (Sample.server Sample.hello_whole)
       Sample.as_is Sample.client Sample.agent VNone VNone (VStr "") VNone (VInt 5) VNone
       (VBool false) VNone Sample.world).2
  = [Http (codegpt.plain PATCH (codegpt.base_url ++ "/agent/" ++ Sample.agent)
             Sample.client_headers (Some (Json.dumps (VDict [("topk", VInt 5)]))))].
Proof.
  apply (update_agent_sends Json.dumps Json.loads (Sample.server Sample.hello_whole)
           Sample.as_is Sample.client Sample.agent VNone VNone (VStr "") VNone (VInt 5) VNone
           (VBool false) VNone Sample.client_headers Sample.world).
  - vm_compute. reflexivity.
  - discriminate.
  - do 4 apply Exists_cons_tl. apply Exists_cons_hd. reflexivity.
Defined.

(** X14 on a deletion that succeeds and on one that does not. *)
Lemma delete_prints_on_200_witness :
  ((codegpt.delete_agent (Sample.server Sample.garbled) Sample.client Sample.agent
      Sample.world).1 = Ok VNone
   ∧ printed_of (added Sample.world
                   (codegpt.delete_agent (Sample.server Sample.garbled) Sample.client
                      Sample.agent Sample.world).2) = ["Agent deleted successfully"])
  ∧ printed_of (added Sample.world
                  (codegpt.delete_document (Sample.server Sample.not_found) Sample.client
                     "doc-1" Sample.world).2) = [].
Proof.
  split.
  - destruct (delete_prints_on_200 (Sample.server Sample.garbled) Sample.client Sample.agent
                Sample.client_headers Sample.world) as [[Hok _] _];
      [vm_compute; reflexivity|].
    apply Hok. reflexivity.
  - destruct (delete_prints_on_200 (Sample.server Sample.not_found) Sample.client "doc-1"
                Sample.client_headers Sample.world) as [_ [_ Hbad]];
      [vm_compute; reflexivity|].
    apply Hbad. discriminate.
Defined.
